(** * AI Content Studio: the content-creation workflow

    A shallow embedding of the research-then-draft pipeline of
    [app/tasks/content_creation_task.py], of the two agents it drives
    ([app/agents/research_agent.py], [app/agents/writer_agent.py],
    [app/agents/base_agent.py]) and of the transport endpoint
    [app/api/content.py], followed by the properties of the pipeline.

    Conventions of the embedding.
    - A Python [str] is a [string] whose characters are the code points
      0..255 (the Latin-1 range); [str.lower], [str.strip] and [str.split]
      are written out for that range.
    - A Python [int] is a [Z].
    - The research result, a [Dict[str, Any]] that the task inspects with the
      [in] operator, is a [gmap string pyval]; the two dictionary literals
      that are only built and returned are records.
    - The completion client, the logger and the clock are the outside world:
      code that talks to them lives in a small state-and-exception monad whose
      state is the chronological list of the effects performed so far. *)

From Stdlib Require Import ZArith Ascii String List Bool Lia DecimalString.
From stdpp Require Import base gmap strings list.

(** ** Python string primitives *)

Module Py.

(** The character with code 34, the double quote of the prompt templates. *)
Definition dquote : string := String (ascii_of_nat 34) "".

(** The line feed, written [\n] in the source. *)
Definition LF : ascii := ascii_of_nat 10.
Definition nl : string := String LF "".

(** [str.isspace] on one code point below 256: TAB, LF, VT, FF, CR, the
    four separators FS, GS, RS, US, the space, NEL and the no-break space. *)
Definition isspace (c : ascii) : bool :=
  let n := nat_of_ascii c in
  ((9 <=? n)%nat && (n <=? 13)%nat)
  || ((28 <=? n)%nat && (n <=? 32)%nat)
  || (n =? 133)%nat || (n =? 160)%nat.

(** [str.lower] on one code point below 256: the letters A..Z, and the
    accented capitals U+00C0..U+00DE except the multiplication sign. *)
Definition lower_char (c : ascii) : ascii :=
  let n := nat_of_ascii c in
  if ((65 <=? n)%nat && (n <=? 90)%nat)
     || ((192 <=? n)%nat && (n <=? 222)%nat && negb (n =? 215)%nat)
  then ascii_of_nat (n + 32)
  else c.

Fixpoint lower (s : string) : string :=
  match s with
  | EmptyString => EmptyString
  | String c s' => String (lower_char c) (lower s')
  end.

(** [str.lstrip()], [str.rstrip()] and [str.strip()] without argument. *)
Fixpoint lstrip (s : string) : string :=
  match s with
  | EmptyString => EmptyString
  | String c s' => if isspace c then lstrip s' else s
  end.

Fixpoint rstrip (s : string) : string :=
  match s with
  | EmptyString => EmptyString
  | String c s' =>
      match rstrip s' with
      | EmptyString => if isspace c then EmptyString else String c EmptyString
      | r => String c r
      end
  end.

Definition strip (s : string) : string := rstrip (lstrip s).

(** [needle in hay] on strings: [needle] occurs at some offset of [hay]. *)
Fixpoint contains (needle hay : string) : bool :=
  String.prefix needle hay
  || match hay with
     | EmptyString => false
     | String _ hay' => contains needle hay'
     end.

(** [s.split(sep)] for a separator of one character; [cur] is the piece
    being read. The result is never empty: [''.split('\n') == ['']]. *)
Fixpoint split_go (sep : ascii) (cur : string) (s : string) : list string :=
  match s with
  | EmptyString => [cur]
  | String c s' =>
      if Ascii.eqb c sep then cur :: split_go sep EmptyString s'
      else split_go sep (cur +:+ String c EmptyString) s'
  end.

Definition split (sep : ascii) (s : string) : list string :=
  split_go sep EmptyString s.

(** [s.split()] without argument: runs of whitespace separate the words and
    no empty word is produced; [tok] is the word being read, if any. *)
Fixpoint split_ws_go (tok : option string) (s : string) : list string :=
  match s with
  | EmptyString => match tok with Some t => [t] | None => [] end
  | String c s' =>
      if isspace c then
        match tok with
        | Some t => t :: split_ws_go None s'
        | None => split_ws_go None s'
        end
      else
        split_ws_go
          (Some (match tok with Some t => t | None => EmptyString end
                 +:+ String c EmptyString)) s'
  end.

Definition split_ws (s : string) : list string := split_ws_go None s.

(** [sep.join(l)]. *)
Definition join (sep : string) (l : list string) : string :=
  String.concat sep l.

(** [str(n)] and [f"{n}"] for an [int]. *)
Definition str_of_int (n : Z) : string :=
  NilEmpty.string_of_int (Z.to_int n).

(** The characters of a string, each as a string of length one: what
    iterating over a [str] yields. *)
Fixpoint chars (s : string) : list string :=
  match s with
  | EmptyString => []
  | String c s' => String c EmptyString :: chars s'
  end.

(** [s.replace(old, new)] for [old] and [new] of one character. *)
Fixpoint replace_char (old new : ascii) (s : string) : string :=
  match s with
  | EmptyString => EmptyString
  | String c s' =>
      String (if Ascii.eqb c old then new else c) (replace_char old new s')
  end.

(** [all(p(c) for c in s)]. *)
Fixpoint all_chars (p : ascii -> bool) (s : string) : bool :=
  match s with
  | EmptyString => true
  | String c s' => p c && all_chars p s'
  end.

(** The first and the last character of a string, if it has one. *)
Definition first_char (s : string) : option ascii :=
  match s with
  | EmptyString => None
  | String c _ => Some c
  end.

Fixpoint last_char (s : string) : option ascii :=
  match s with
  | EmptyString => None
  | String c EmptyString => Some c
  | String _ s' => last_char s'
  end.

(** The decimal digits 0..9, the only characters below 256 that the regular
    expression class [\d] accepts. *)
Definition is_digit (c : ascii) : bool :=
  let n := nat_of_ascii c in (48 <=? n)%nat && (n <=? 57)%nat.

(** [int(s)] for a string of decimal digits, most significant digit first;
    [acc] is the value of the digits read so far. *)
Fixpoint int_of_digits_go (acc : Z) (s : string) : Z :=
  match s with
  | EmptyString => acc
  | String c s' =>
      int_of_digits_go (10 * acc + Z.of_nat (nat_of_ascii c - 48)) s'
  end.

Definition int_of_digits (s : string) : Z := int_of_digits_go 0 s.

(** The rest of [s] after the prefix [p], when [s] starts with [p]. *)
Fixpoint strip_prefix (p s : string) : option string :=
  match p with
  | EmptyString => Some s
  | String a p' =>
      match s with
      | EmptyString => None
      | String b s' => if Ascii.eqb a b then strip_prefix p' s' else None
      end
  end.

End Py.

(** ** Exceptions, effects and the outside world *)

(** The exceptions of the workflow. [UpstreamFailure] stands for whatever the
    completion client raises; it is identified by its message. *)
Inductive exn : Type :=
| ValueError (msg : string)
| HTTPException (status_code : Z) (detail : string)
| UpstreamFailure (msg : string).

(** [str(e)]. *)
Definition exn_str (e : exn) : string :=
  match e with
  | ValueError msg => msg
  | HTTPException code detail => Py.str_of_int code +:+ ": " +:+ detail
  | UpstreamFailure msg => msg
  end.

(** The two completion clients of the workflow: each agent object owns one. *)
Inductive agent_id : Type := Researcher | Writer.

Inductive log_level : Type := INFO | ERROR.

(** What the code does to the outside world, in the order it does it. *)
Inductive event : Type :=
| Log (logger : string) (level : log_level) (msg : string)
| Complete (who : agent_id) (prompt : string).

Definition trace : Type := list event.

(** The events of a trace that are completion calls, as (agent, prompt). *)
Fixpoint completion_calls (t : trace) : list (agent_id * string) :=
  match t with
  | [] => []
  | Complete who prompt :: t' => (who, prompt) :: completion_calls t'
  | Log _ _ _ :: t' => completion_calls t'
  end.

(** The outside world: the completion client answers a prompt with text
    ([inr]) or raises ([inl], with the message of the exception); its answer
    may depend on the completion calls made before. The clock gives
    [datetime.now().isoformat()]. *)
Record World : Type := {
  complete : list (agent_id * string) -> agent_id -> string -> string + string;
  now : trace -> string
}.

(** Computations that extend the trace and return a value or raise. *)
Definition M (A : Type) : Type := trace -> trace * (exn + A).

Definition ret {A : Type} (a : A) : M A := fun t => (t, inr a).

Definition raise {A : Type} (e : exn) : M A := fun t => (t, inl e).

Definition bind {A B : Type} (m : M A) (k : A -> M B) : M B :=
  fun t =>
    match m t with
    | (t', inl e) => (t', inl e)
    | (t', inr a) => k a t'
    end.

Definition emit (ev : event) : M unit := fun t => (t ++ [ev], inr tt).

(** [try: body / except Exception as e: handler e]. *)
Definition try_except {A : Type} (body : M A) (handler : exn -> M A) : M A :=
  fun t =>
    match body t with
    | (t', inl e) => handler e t'
    | (t', inr a) => (t', inr a)
    end.

(** A step that touches nothing outside: it returns its value or raises. *)
Definition lift_result {A : Type} (r : exn + A) : M A := fun t => (t, r).

Declare Scope py_scope.
Delimit Scope py_scope with py.
Notation "x <- m ;; k" := (bind m (fun x => k))
  (at level 100, m at next level, right associativity) : py_scope.
Notation "m ;;; k" := (bind m (fun _ => k))
  (at level 100, right associativity) : py_scope.

(** ** Data *)

(** A value stored in the research dictionary: a string or a list of strings. *)
Inductive pyval : Type :=
| PStr (s : string)
| PList (l : list string).

(** [v[:n]] followed by iteration: the first [n] items of a list, or the first
    [n] characters of a string. *)
Definition slice_items (n : nat) (v : pyval) : list string :=
  match v with
  | PList l => take n l
  | PStr s => take n (Py.chars s)
  end.

(** The dictionary [_create_draft] returns. *)
Record DraftResult : Type := {
  draft_content : string;
  research_incorporated : bool;
  word_count_actual : Z;
  keywords_used : list string
}.

(** The request model of the endpoint and the parameters of [create_content]. *)
Record ContentRequest : Type := {
  req_topic : string;
  req_content_type : string;
  req_target_audience : string;
  req_word_count : Z;
  req_tone : string;
  req_keywords : option (list string);
  req_research_depth : string
}.

(** The dictionary [create_content] returns. *)
Record ContentRecord : Type := {
  topic : string;
  content_type : string;
  target_audience : string;
  word_count : Z;
  tone : string;
  keywords : option (list string);
  research_data : gmap string pyval;
  content : DraftResult;
  creation_timestamp : string;
  status : string
}.

(** The part of [app.config.Settings] the endpoint reads. *)
Record Settings : Type := {
  secret_key : string
}.

(** ** [app/agents/base_agent.py] *)

Module BaseAgent.

(** The attributes of an agent object the workflow reads: its name, from
    which its logger is named, and the completion client it owns. *)
Record t : Type := {
  name : string;
  ident : agent_id
}.

(** [logging.getLogger(f"agent.{name.lower()}")]. *)
Definition logger (self : t) : string := "agent." +:+ Py.lower (name self).

Section WithWorld.
Variable w : World.

(** [self.agent.execute_task(task_input)]: one call of the completion
    client, recorded in the trace whether it returns or raises. *)
Definition agent_execute_task (who : agent_id) (task_input : string)
  : M string :=
  fun tr =>
    (tr ++ [Complete who task_input],
     match complete w (completion_calls tr) who task_input with
     | inl msg => inl (UpstreamFailure msg)
     | inr out => inr out
     end).

(** [execute_task], called without [context] by both agents. *)
Definition execute_task (self : t) (task_description : string) : M string :=
  try_except
    (emit (Log (logger self) INFO
             ("Executing task: " +:+ task_description)) ;;;
     let task_input := task_description in
     result <- agent_execute_task (ident self) task_input ;;
     emit (Log (logger self) INFO "Task completed successfully") ;;;
     ret result)%py
    (fun e =>
       emit (Log (logger self) ERROR
               ("Error executing task: " +:+ exn_str e)) ;;;
       raise e)%py.

End WithWorld.

Definition postprocess_output (output_data : string) : string :=
  Py.strip output_data.

End BaseAgent.

(** ** [app/agents/research_agent.py] *)

Module ResearchAgent.

Definition self : BaseAgent.t :=
  {| BaseAgent.name := "Research Specialist"; BaseAgent.ident := Researcher |}.

(** [len(input_data.strip()) > 0] for a [str] argument. *)
Definition validate_input (input_data : string) : bool :=
  (0 <? String.length (Py.strip input_data))%nat.

(** [any(keyword in line.lower() for keyword in keywords)]. *)
Definition any_keyword (keywords : list string) (line : string) : bool :=
  existsb (fun keyword => Py.contains keyword (Py.lower line)) keywords.

(** The loop shared by the [_extract_*] helpers: start from the empty list
    and append the stripped line whenever one of the keywords occurs. *)
Definition extract_loop (keywords : list string) (lines : list string)
  : list string :=
  fold_left
    (fun found line =>
       if any_keyword keywords line then found ++ [Py.strip line] else found)
    lines [].

Definition key_facts_keywords : list string :=
  ["fact"; "statistic"; "data"; "figure"].
Definition sources_keywords : list string :=
  ["source"; "reference"; "study"; "report"].
Definition insights_keywords : list string :=
  ["insight"; "finding"; "discovery"; "observation"].
Definition recommendations_keywords : list string :=
  ["recommend"; "suggest"; "advise"; "propose"].

Definition _extract_key_facts (text : string) : list string :=
  extract_loop key_facts_keywords (Py.split Py.LF text).

Definition _extract_sources (text : string) : list string :=
  extract_loop sources_keywords (Py.split Py.LF text).

Definition _extract_insights (text : string) : list string :=
  extract_loop insights_keywords (Py.split Py.LF text).

Definition _extract_recommendations (text : string) : list string :=
  extract_loop recommendations_keywords (Py.split Py.LF text).

Definition _parse_research_result (research_text topic : string)
  : gmap string pyval :=
  list_to_map
    [("topic", PStr topic);
     ("research_findings", PStr research_text);
     ("key_facts", PList (_extract_key_facts research_text));
     ("sources", PList (_extract_sources research_text));
     ("insights", PList (_extract_insights research_text));
     ("recommendations", PList (_extract_recommendations research_text))].

(** The f-string of [research_topic]; every line of the template carries the
    eight spaces of its indentation in the source. *)
Definition task_description
  (topic research_depth content_type target_audience : string) : string :=
  Py.join Py.nl
    [""; 
     "        Conduct " +:+ research_depth +:+ " research on the topic: "
       +:+ Py.dquote +:+ topic +:+ Py.dquote;
     "        ";
     "        Content Type: " +:+ content_type;
     "        Target Audience: " +:+ target_audience;
     "        ";
     "        Please provide:";
     "        1. Key facts and statistics";
     "        2. Current trends and developments";
     "        3. Expert opinions and quotes";
     "        4. Relevant case studies or examples";
     "        5. Historical context (if applicable)";
     "        6. Controversial aspects or debates";
     "        7. Future implications or predictions";
     "        8. Credible sources and references";
     "        9. Data visualization suggestions";
     "        10. Research gaps or areas for further study";
     "        "].

Section WithWorld.
Variable w : World.

Definition research_topic
  (topic research_depth content_type target_audience : string)
  : M (gmap string pyval) :=
  if negb (validate_input topic) then
    raise (ValueError "Topic cannot be empty")
  else
    (result <- BaseAgent.execute_task w self
                 (task_description topic research_depth content_type
                    target_audience) ;;
     ret (_parse_research_result result topic))%py.

End WithWorld.

(** *** The other capabilities of the research agent *)

Definition verified_facts_keywords : list string :=
  ["verified"; "confirmed"; "accurate"; "correct"].
Definition corrections_keywords : list string :=
  ["correction"; "error"; "inaccurate"; "wrong"].
Definition verified_sources_keywords : list string :=
  ["verified source"; "credible"; "reliable"].
Definition key_numbers_keywords : list string :=
  ["percent"; "million"; "billion"; "thousand"].
Definition trends_keywords : list string :=
  ["trend"; "growth"; "increase"; "decrease"].
Definition data_sources_keywords : list string :=
  ["source"; "data from"; "according to"].
Definition viz_suggestions_keywords : list string :=
  ["chart"; "graph"; "visualization"; "diagram"].
Definition credentials_keywords : list string :=
  ["phd"; "professor"; "expert"; "specialist"].
Definition quote_sources_keywords : list string :=
  ["source"; "interview"; "study"; "report"].
Definition current_trends_keywords : list string :=
  ["current"; "present"; "now"; "today"].
Definition emerging_trends_keywords : list string :=
  ["emerging"; "new"; "developing"; "growing"].
Definition future_predictions_keywords : list string :=
  ["future"; "prediction"; "forecast"; "will"].
Definition trend_implications_keywords : list string :=
  ["implication"; "impact"; "effect"; "consequence"].

Definition _extract_verified_facts (text : string) : list string :=
  extract_loop verified_facts_keywords (Py.split Py.LF text).

Definition _extract_corrections (text : string) : list string :=
  extract_loop corrections_keywords (Py.split Py.LF text).

Definition _extract_verified_sources (text : string) : list string :=
  extract_loop verified_sources_keywords (Py.split Py.LF text).

Definition _extract_key_numbers (text : string) : list string :=
  extract_loop key_numbers_keywords (Py.split Py.LF text).

Definition _extract_trends (text : string) : list string :=
  extract_loop trends_keywords (Py.split Py.LF text).

Definition _extract_data_sources (text : string) : list string :=
  extract_loop data_sources_keywords (Py.split Py.LF text).

Definition _extract_viz_suggestions (text : string) : list string :=
  extract_loop viz_suggestions_keywords (Py.split Py.LF text).

Definition _extract_credentials (text : string) : list string :=
  extract_loop credentials_keywords (Py.split Py.LF text).

Definition _extract_quote_sources (text : string) : list string :=
  extract_loop quote_sources_keywords (Py.split Py.LF text).

Definition _extract_current_trends (text : string) : list string :=
  extract_loop current_trends_keywords (Py.split Py.LF text).

Definition _extract_emerging_trends (text : string) : list string :=
  extract_loop emerging_trends_keywords (Py.split Py.LF text).

Definition _extract_future_predictions (text : string) : list string :=
  extract_loop future_predictions_keywords (Py.split Py.LF text).

Definition _extract_trend_implications (text : string) : list string :=
  extract_loop trend_implications_keywords (Py.split Py.LF text).

(** The test of [_extract_quotes]: the line holds a double quote or a single
    quote; the line is tested as it stands, without lowering. *)
Definition has_quote_mark (line : string) : bool :=
  Py.contains Py.dquote line || Py.contains "'" line.

Definition _extract_quotes (text : string) : list string :=
  fold_left
    (fun quotes line =>
       if has_quote_mark line then quotes ++ [Py.strip line] else quotes)
    (Py.split Py.LF text) [].

(** The regular expression [accuracy[:\s]*(\d+)], piece by piece. A character
    of the class [[:\s]] is a colon or a whitespace character. *)
Definition is_label_sep (c : ascii) : bool :=
  Ascii.eqb c ":"%char || Py.isspace c.

(** [[:\s]*] is greedy: it consumes the whole run of separator characters.
    Giving characters back cannot help the digits that follow, since no
    separator is a digit. *)
Fixpoint skip_label_sep (s : string) : string :=
  match s with
  | EmptyString => EmptyString
  | String c s' => if is_label_sep c then skip_label_sep s' else s
  end.

(** [(\d+)] is greedy: the group is the whole run of digits. *)
Fixpoint take_digits (s : string) : string :=
  match s with
  | EmptyString => EmptyString
  | String c s' =>
      if Py.is_digit c then String c (take_digits s') else EmptyString
  end.

(** The expression matched at the start of [s]: the captured group. *)
Definition match_accuracy_here (s : string) : option string :=
  match Py.strip_prefix "accuracy" s with
  | Some rest =>
      match take_digits (skip_label_sep rest) with
      | EmptyString => None
      | String d ds => Some (String d ds)
      end
  | None => None
  end.

(** [re.search]: the match at the leftmost offset where there is one. *)
Fixpoint search_accuracy (s : string) : option string :=
  match match_accuracy_here s with
  | Some group => Some group
  | None =>
      match s with
      | EmptyString => None
      | String _ s' => search_accuracy s'
      end
  end.

(** [int(group)] for a captured run of digits. CPython refuses, with a
    [ValueError], to convert a decimal string of more than 4300 digits (the
    default of [sys.set_int_max_str_digits]); leading zeros count. *)
Definition max_str_digits : nat := 4300.

Definition int_of_group (group : string) : exn + Z :=
  if (String.length group <=? max_str_digits)%nat then
    inr (Py.int_of_digits group)
  else
    inl (ValueError
           ("Exceeds the limit (4300 digits) for integer string conversion: "
            +:+ "value has "
            +:+ Py.str_of_int (Z.of_nat (String.length group))
            +:+ " digits; use sys.set_int_max_str_digits() "
            +:+ "to increase the limit")).

(** [int(score_match.group(1)) if score_match else None]: a number, [None],
    or the [ValueError] of [int]. *)
Definition _extract_accuracy_score (text : string) : exn + option Z :=
  match search_accuracy (Py.lower text) with
  | Some group =>
      match int_of_group group with
      | inl e => inl e
      | inr n => inr (Some n)
      end
  | None => inr None
  end.

(** The dictionaries the other [_parse_*_result] helpers return. *)
Record FactCheckResult : Type := {
  fact_check_results : string;
  verified_facts : list string;
  corrections_needed : list string;
  accuracy_score : option Z;
  sources_verified : list string
}.

Record StatisticsResult : Type := {
  statistics_data : string;
  key_numbers : list string;
  trends : list string;
  data_sources : list string;
  visualization_suggestions : list string
}.

Record QuotesResult : Type := {
  expert_quotes : string;
  quotes_list : list string;
  expert_credentials : list string;
  quote_sources : list string
}.

Record TrendsResult : Type := {
  trend_analysis : string;
  current_trends : list string;
  emerging_trends : list string;
  future_predictions : list string;
  trend_implications : list string
}.

(** The dictionary literal is built only if [_extract_accuracy_score] does
    not raise; the other entries cannot raise. *)
Definition _parse_fact_check_result (fact_check_text : string)
  : exn + FactCheckResult :=
  match _extract_accuracy_score fact_check_text with
  | inl e => inl e
  | inr score =>
      inr {| fact_check_results := fact_check_text;
             verified_facts := _extract_verified_facts fact_check_text;
             corrections_needed := _extract_corrections fact_check_text;
             accuracy_score := score;
             sources_verified := _extract_verified_sources fact_check_text |}
  end.

Definition _parse_statistics_result (stats_text : string) : StatisticsResult :=
  {| statistics_data := stats_text;
     key_numbers := _extract_key_numbers stats_text;
     trends := _extract_trends stats_text;
     data_sources := _extract_data_sources stats_text;
     visualization_suggestions := _extract_viz_suggestions stats_text |}.

Definition _parse_quotes_result (quotes_text : string) : QuotesResult :=
  {| expert_quotes := quotes_text;
     quotes_list := _extract_quotes quotes_text;
     expert_credentials := _extract_credentials quotes_text;
     quote_sources := _extract_quote_sources quotes_text |}.

Definition _parse_trends_result (trends_text : string) : TrendsResult :=
  {| trend_analysis := trends_text;
     current_trends := _extract_current_trends trends_text;
     emerging_trends := _extract_emerging_trends trends_text;
     future_predictions := _extract_future_predictions trends_text;
     trend_implications := _extract_trend_implications trends_text |}.

(** The f-string of [fact_check_content]. *)
Definition fact_check_description (content topic : string) : string :=
  Py.join Py.nl
    [""; 
     "        Fact-check the following content about "
       +:+ Py.dquote +:+ topic +:+ Py.dquote +:+ ":";
     "        ";
     "        " +:+ content;
     "        ";
     "        Please verify:";
     "        1. All factual claims and statements";
     "        2. Statistics and data accuracy";
     "        3. Quote authenticity and attribution";
     "        4. Date and timeline accuracy";
     "        5. Source credibility and reliability";
     "        6. Context accuracy and completeness";
     "        7. Potential biases or misinformation";
     "        8. Recommendations for corrections";
     "        "].

(** The prompt of [gather_statistics]: an f-string, the two optional lines,
    each added for a non-empty string only, and the closing literal. *)
Definition optional_line (label : string) (value : option string) : string :=
  match value with
  | Some (String c v) => Py.nl +:+ label +:+ String c v
  | _ => ""
  end.

Definition statistics_description
  (topic : string) (time_period geographic_scope : option string) : string :=
  Py.join Py.nl
    [""; 
     "        Gather relevant statistics and data for: "
       +:+ Py.dquote +:+ topic +:+ Py.dquote;
     "        "]
  +:+ optional_line "Time Period: " time_period
  +:+ optional_line "Geographic Scope: " geographic_scope
  +:+ Py.join Py.nl
        [""; 
         "        ";
         "        Please provide:";
         "        1. Key statistics and numbers";
         "        2. Growth trends and patterns";
         "        3. Comparative data and benchmarks";
         "        4. Demographic breakdowns";
         "        5. Industry-specific metrics";
         "        6. Economic impact data";
         "        7. Social and cultural statistics";
         "        8. Data sources and reliability";
         "        9. Data visualization suggestions";
         "        10. Limitations and caveats";
         "        "].

(** The f-string of [find_expert_quotes]. *)
Definition quotes_description (topic quote_type : string) : string :=
  Py.join Py.nl
    [""; 
     "        Find relevant " +:+ quote_type
       +:+ " expert quotes and insights for: "
       +:+ Py.dquote +:+ topic +:+ Py.dquote;
     "        ";
     "        Please provide:";
     "        1. Expert quotes with proper attribution";
     "        2. Industry leader insights";
     "        3. Academic expert opinions";
     "        4. Thought leader perspectives";
     "        5. Controversial or opposing viewpoints";
     "        6. Historical expert commentary";
     "        7. Future predictions from experts";
     "        8. Expert credentials and credibility";
     "        9. Quote context and relevance";
     "        10. Source verification and reliability";
     "        "].

(** The f-string of [analyze_trends]. *)
Definition trends_description (topic time_period trend_type : string)
  : string :=
  Py.join Py.nl
    [""; 
     "        Analyze " +:+ trend_type +:+ " trends related to: "
       +:+ Py.dquote +:+ topic +:+ Py.dquote;
     "        ";
     "        Time Period: " +:+ time_period;
     "        ";
     "        Please provide:";
     "        1. Current trend analysis";
     "        2. Historical trend patterns";
     "        3. Emerging trends and developments";
     "        4. Trend drivers and factors";
     "        5. Industry-specific trends";
     "        6. Consumer behavior trends";
     "        7. Technology impact on trends";
     "        8. Future trend predictions";
     "        9. Trend implications and consequences";
     "        10. Data sources and methodology";
     "        "].

Section OtherCapabilities.
Variable w : World.

Definition fact_check_content (content topic : string) : M FactCheckResult :=
  (result <- BaseAgent.execute_task w self
               (fact_check_description content topic) ;;
   lift_result (_parse_fact_check_result result))%py.

Definition gather_statistics
  (topic : string) (time_period geographic_scope : option string)
  : M StatisticsResult :=
  (result <- BaseAgent.execute_task w self
               (statistics_description topic time_period geographic_scope) ;;
   ret (_parse_statistics_result result))%py.

Definition find_expert_quotes (topic quote_type : string) : M QuotesResult :=
  (result <- BaseAgent.execute_task w self
               (quotes_description topic quote_type) ;;
   ret (_parse_quotes_result result))%py.

Definition analyze_trends (topic time_period trend_type : string)
  : M TrendsResult :=
  (result <- BaseAgent.execute_task w self
               (trends_description topic time_period trend_type) ;;
   ret (_parse_trends_result result))%py.

End OtherCapabilities.

End ResearchAgent.

(** ** [app/agents/writer_agent.py] *)

Module WriterAgent.

Definition self : BaseAgent.t :=
  {| BaseAgent.name := "Content Writer"; BaseAgent.ident := Writer |}.

Definition validate_input (input_data : string) : bool :=
  (0 <? String.length (Py.strip input_data))%nat.

(** The opening f-string of [create_content_draft]. *)
Definition specifications
  (topic content_type target_audience : string) (word_count : Z)
  (tone : string) : string :=
  Py.join Py.nl
    [""; 
     "        Create a " +:+ content_type +:+ " about "
       +:+ Py.dquote +:+ topic +:+ Py.dquote
       +:+ " with the following specifications:";
     "        ";
     "        - Target Audience: " +:+ target_audience;
     "        - Word Count: Approximately " +:+ Py.str_of_int word_count
       +:+ " words";
     "        - Tone: " +:+ tone;
     "        - Content Type: " +:+ content_type;
     "        "].

(** The closing literal of the prompt. *)
Definition quality_checklist : string :=
  Py.join Py.nl
    [""; 
     "        ";
     "        Please ensure the content is:";
     "        1. Well-structured with clear headings and subheadings";
     "        2. Engaging and informative";
     "        3. Optimized for the target audience";
     "        4. Free of grammatical errors";
     "        5. Original and plagiarism-free";
     "        "].

(** [if keywords:] adds the keyword line for a non-empty list only. *)
Definition keywords_line (keywords : option (list string)) : string :=
  match keywords with
  | Some (k :: ks) =>
      Py.nl +:+ "- Keywords to include naturally: "
        +:+ Py.join ", " (k :: ks)
  | _ => ""
  end.

(** [if additional_requirements:] adds the line for a non-empty string only. *)
Definition requirements_line (additional_requirements : option string)
  : string :=
  match additional_requirements with
  | Some (String c r) =>
      Py.nl +:+ "- Additional Requirements: " +:+ String c r
  | _ => ""
  end.

Definition task_description
  (topic content_type target_audience : string) (word_count : Z)
  (tone : string) (keywords : option (list string))
  (additional_requirements : option string) : string :=
  specifications topic content_type target_audience word_count tone
    +:+ keywords_line keywords
    +:+ requirements_line additional_requirements
    +:+ quality_checklist.

Section WithWorld.
Variable w : World.

Definition create_content_draft
  (topic content_type target_audience : string) (word_count : Z)
  (tone : string) (keywords : option (list string))
  (additional_requirements : option string) : M string :=
  if negb (validate_input topic) then
    raise (ValueError "Topic cannot be empty")
  else
    (result <- BaseAgent.execute_task w self
                 (task_description topic content_type target_audience
                    word_count tone keywords additional_requirements) ;;
     ret (BaseAgent.postprocess_output result))%py.

End WithWorld.

End WriterAgent.

(** ** [app/tasks/content_creation_task.py] *)

Module ContentCreationTask.

(** The name given to [BaseTask.__init__] and the logger made from it:
    [logging.getLogger(f"task.{name.lower().replace(' ', '_')}")]. *)
Definition name : string := "Content Creation".

Definition logger : string :=
  "task." +:+ Py.replace_char " "%char "_"%char (Py.lower name).

Definition _prepare_research_requirements (research_data : gmap string pyval)
  : string :=
  let requirements : list string := [] in
  let requirements :=
    match research_data !! "key_facts" with
    | Some v =>
        requirements ++ ["Key Facts: " +:+ Py.join ", " (slice_items 5 v)]
    | None => requirements
    end in
  let requirements :=
    match research_data !! "sources" with
    | Some v =>
        requirements
          ++ ["Credible Sources: " +:+ Py.join ", " (slice_items 3 v)]
    | None => requirements
    end in
  let requirements :=
    match research_data !! "insights" with
    | Some v =>
        requirements ++ ["Key Insights: " +:+ Py.join ", " (slice_items 3 v)]
    | None => requirements
    end in
  match requirements with
  | [] => ""
  | _ :: _ => Py.join Py.nl requirements
  end.

(** [keywords or []]. *)
Definition keywords_or_empty (keywords : option (list string)) : list string :=
  match keywords with
  | Some (k :: ks) => k :: ks
  | _ => []
  end.

(** Input validation of the task on [request.dict()], which always has the
    key [topic]: the topic must be truthy, that is, not the empty string. *)
Definition validate_input (input_data : ContentRequest) : bool :=
  negb (String.eqb (req_topic input_data) "").

Section WithWorld.
Variable w : World.

Definition _conduct_research
  (topic content_type target_audience research_depth : string)
  : M (gmap string pyval) :=
  (emit (Log logger INFO ("Conducting research for topic: " +:+ topic)) ;;;
   research_result <-
     ResearchAgent.research_topic w topic research_depth content_type
       target_audience ;;
   ret research_result)%py.

Definition _create_draft
  (topic content_type target_audience : string) (word_count : Z)
  (tone : string) (keywords : option (list string))
  (research_data : gmap string pyval) : M DraftResult :=
  (emit (Log logger INFO ("Creating content draft for topic: " +:+ topic)) ;;;
   let additional_requirements :=
     _prepare_research_requirements research_data in
   content_draft <-
     WriterAgent.create_content_draft w topic content_type target_audience
       word_count tone keywords (Some additional_requirements) ;;
   ret {| draft_content := content_draft;
          research_incorporated := true;
          word_count_actual :=
            Z.of_nat (length (Py.split_ws content_draft));
          keywords_used := keywords_or_empty keywords |})%py.

(** [datetime.now().isoformat()]. *)
Definition _get_timestamp : M string := fun tr => (tr, inr (now w tr)).

Definition create_content
  (topic content_type target_audience : string) (word_count : Z)
  (tone : string) (keywords : option (list string))
  (research_depth : string) : M ContentRecord :=
  try_except
    (emit (Log logger INFO
             ("Starting content creation for topic: " +:+ topic)) ;;;
     research_result <-
       _conduct_research topic content_type target_audience
         research_depth ;;
     content_result <-
       _create_draft topic content_type target_audience word_count tone
         keywords research_result ;;
     timestamp <- _get_timestamp ;;
     let final_result :=
       {| topic := topic;
          content_type := content_type;
          target_audience := target_audience;
          word_count := word_count;
          tone := tone;
          keywords := keywords;
          research_data := research_result;
          content := content_result;
          creation_timestamp := timestamp;
          status := "completed" |} in
     emit (Log logger INFO "Content creation completed successfully") ;;;
     ret final_result)%py
    (fun e =>
       emit (Log logger ERROR
               ("Error in content creation: " +:+ exn_str e)) ;;;
       raise e)%py.

End WithWorld.

End ContentCreationTask.

(** ** [app/tasks/research_task.py] *)

Module ResearchTask.

(** The dictionaries the two methods of the task return. *)
Record ResearchOutcome : Type := {
  research_data : gmap string pyval;
  research_timestamp : string;
  status : string
}.

Record FactCheckOutcome : Type := {
  fact_check_data : ResearchAgent.FactCheckResult;
  content : string;
  fact_check_timestamp : string;
  fact_check_status : string
}.

Section WithWorld.
Variable w : World.

(** [datetime.now().isoformat()]. *)
Definition _get_timestamp : M string := fun tr => (tr, inr (now w tr)).

Definition research_topic
  (topic research_depth content_type target_audience : string)
  : M ResearchOutcome :=
  (research_result <-
     ResearchAgent.research_topic w topic research_depth content_type
       target_audience ;;
   timestamp <- _get_timestamp ;;
   ret {| research_data := research_result;
          research_timestamp := timestamp;
          status := "researched" |})%py.

Definition fact_check_content (content topic : string) : M FactCheckOutcome :=
  (fact_check_result <- ResearchAgent.fact_check_content w content topic ;;
   timestamp <- _get_timestamp ;;
   ret {| fact_check_data := fact_check_result;
          content := content;
          fact_check_timestamp := timestamp;
          fact_check_status := "fact_checked" |})%py.

End WithWorld.

End ResearchTask.

(** ** [app/api/content.py] *)

Module Api.

Section WithWorld.
Variable w : World.
Variable settings : Settings.

(** The security dependency. [api_key] is the value of the [X-API-Key]
    header, [None] when the request has none ([auto_error=False]). *)
Definition get_api_key (api_key : option string) : M (option string) :=
  if decide (api_key = Some (secret_key settings)) then ret api_key
  else raise (HTTPException 401 "Invalid API Key").

(** The body of the path operation. *)
Definition create_content (request : ContentRequest) : M ContentRecord :=
  if negb (ContentCreationTask.validate_input request) then
    raise (HTTPException 400 "Invalid input data")
  else
    (result <-
       ContentCreationTask.create_content w
         (req_topic request) (req_content_type request)
         (req_target_audience request) (req_word_count request)
         (req_tone request) (req_keywords request)
         (req_research_depth request) ;;
     ret result)%py.

(** [@router.post("/create", dependencies=[Depends(get_api_key)])]: the
    framework resolves the dependency first and calls the path operation
    only if the dependency did not raise. *)
Definition post_create (api_key : option string) (request : ContentRequest)
  : M ContentRecord :=
  (_ <- get_api_key api_key ;;
   create_content request)%py.

End WithWorld.

End Api.

(** ** The words of the specification *)

Module Spec.

(** The number of whitespace-separated tokens of a text: the number of
    characters that are not whitespace and stand at the start of the text
    or right after a whitespace character. *)
Fixpoint count_token_starts (after_space : bool) (s : string) : nat :=
  match s with
  | EmptyString => 0
  | String c s' =>
      if Py.isspace c then count_token_starts true s'
      else (if after_space then 1 else 0) + count_token_starts false s'
  end.

Definition token_count (s : string) : nat := count_token_starts true s.

(** [keyword] is a case-insensitive substring of [line]: some stretch of
    [line] equals [keyword] once both are put in lower case. *)
Definition ci_substring (keyword line : string) : Prop :=
  exists before middle after : string,
    line = before +:+ middle +:+ after
    /\ Py.lower middle = Py.lower keyword.

(** A line belongs to a bucket when it contains one of the bucket's
    keywords as a case-insensitive substring. *)
Definition in_bucket (keywords : list string) (line : string) : Prop :=
  exists keyword : string, In keyword keywords /\ ci_substring keyword line.

(** A keyword that neither starts nor ends with a whitespace character (and
    so is not empty). *)
Definition edges_not_space (keyword : string) : bool :=
  match Py.first_char keyword, Py.last_char keyword with
  | Some a, Some b => negb (Py.isspace a) && negb (Py.isspace b)
  | _, _ => false
  end.

(** What holds of a bucket extracted from [text] with the keywords
    [keywords]: every entry is stripped and contains one of the keywords as a
    case-insensitive substring, and there are at most as many entries as
    lines. *)
Definition bucket_ok (keywords : list string) (text : string)
  (bucket : list string) : Prop :=
  Forall (fun entry => Py.strip entry = entry /\ in_bucket keywords entry)
    bucket
  /\ length bucket <= length (Py.split Py.LF text).

End Spec.

(** ** A sample world *)

Module Sample.

Definition research_text : string :=
  "Fact: sales data grew" +:+ Py.nl +:+ "  A study found an insight "
    +:+ Py.nl +:+ "Nothing to see".

(** A world whose research client returns [research_text] and whose writer
    client returns a text of three words. *)
Definition world : World :=
  {| complete := fun _ who _ =>
       match who with
       | Researcher => inr research_text
       | Writer => inr "  one two  three "
       end;
     now := fun _ => "2024-01-01T00:00:00" |}.

(** A world whose research client raises. *)
Definition failing_world : World :=
  {| complete := fun _ who _ =>
       match who with
       | Researcher => inl "rate limit"
       | Writer => inr "unused"
       end;
     now := fun _ => "2024-01-01T00:00:00" |}.

(** A world whose writer client raises. *)
Definition writer_failing_world : World :=
  {| complete := fun _ who _ =>
       match who with
       | Researcher => inr research_text
       | Writer => inl "timeout"
       end;
     now := fun _ => "2024-01-01T00:00:00" |}.

(** A world whose writer client answers with whitespace only. *)
Definition blank_world : World :=
  {| complete := fun _ who _ =>
       match who with
       | Researcher => inr research_text
       | Writer => inr "  "
       end;
     now := fun _ => "2024-01-01T00:00:00" |}.

(** A world whose clients return the empty text. *)
Definition silent_world : World :=
  {| complete := fun _ _ _ => inr "";
     now := fun _ => "2024-01-01T00:00:00" |}.

Definition settings : Settings := {| secret_key := "s3cret" |}.

Definition request : ContentRequest :=
  {| req_topic := "electric vehicles";
     req_content_type := "article";
     req_target_audience := "general";
     req_word_count := 500;
     req_tone := "professional";
     req_keywords := Some ["EV"; "battery"];
     req_research_depth := "comprehensive" |}.

(** A research dictionary, as a stub would return it, with seven key
    facts, four sources and no insight. *)
Definition stub_research : gmap string pyval :=
  list_to_map
    [("key_facts", PList ["f1"; "f2"; "f3"; "f4"; "f5"; "f6"; "f7"]);
     ("sources", PList ["s1"; "s2"; "s3"; "s4"]);
     ("insights", PList [])].

(** A research dictionary whose three sequences are empty. *)
Definition empty_research : gmap string pyval :=
  list_to_map
    [("key_facts", PList []); ("sources", PList []); ("insights", PList [])].

End Sample.

(** ** The shape of a run *)

(** The result of one completion call, as the exception or value the agent
    sees. *)
Definition outcome_result (r : string + string) : exn + string :=
  match r with
  | inl msg => inl (UpstreamFailure msg)
  | inr out => inr out
  end.

(** What [execute_task] adds to the trace when the completion client answers
    [r]: the announcement, the call, and the success or error line. *)
Definition execute_events (self : BaseAgent.t) (prompt : string)
  (r : string + string) : trace :=
  [Log (BaseAgent.logger self) INFO ("Executing task: " +:+ prompt);
   Complete (BaseAgent.ident self) prompt;
   match r with
   | inl msg =>
       Log (BaseAgent.logger self) ERROR ("Error executing task: " +:+ msg)
   | inr _ => Log (BaseAgent.logger self) INFO "Task completed successfully"
   end].

(** The prompt the Writer receives when the research data is [research_data]. *)
Definition draft_prompt
  (topic content_type target_audience : string) (word_count : Z)
  (tone : string) (keywords : option (list string))
  (research_data : gmap string pyval) : string :=
  WriterAgent.task_description topic content_type target_audience word_count
    tone keywords
    (Some (ContentCreationTask._prepare_research_requirements research_data)).

(** ** Facts about the string primitives *)

Section StringFacts.

Lemma sapp_nil_l (s : string) : "" +:+ s = s.
Proof. reflexivity. Qed.

Lemma sapp_cons (c : ascii) (s u : string) :
  String c s +:+ u = String c (s +:+ u).
Proof. reflexivity. Qed.

Lemma sapp_nil_r (s : string) : s +:+ "" = s.
Proof.
  induction s as [|c s IH]; [reflexivity|].
  rewrite sapp_cons, IH. reflexivity.
Qed.

Lemma sapp_assoc (s u v : string) : (s +:+ u) +:+ v = s +:+ (u +:+ v).
Proof.
  induction s as [|c s IH]; [reflexivity|].
  rewrite !sapp_cons, IH. reflexivity.
Qed.

Lemma prefix_spec (p s : string) :
  String.prefix p s = true <-> exists rest, s = p +:+ rest.
Proof.
  revert s. induction p as [|c p IH]; intros [|d s]; simpl.
  - split; [intros _; exists ""; reflexivity | reflexivity].
  - split; [intros _; exists (String d s); reflexivity | reflexivity].
  - split; [discriminate | intros [rest H]; discriminate H].
  - destruct (ascii_dec c d) as [->|Hne].
    + rewrite IH. split; intros [rest H]; exists rest.
      * rewrite sapp_cons. f_equal. exact H.
      * rewrite sapp_cons in H. injection H as H. exact H.
    + split; [discriminate|].
      intros [rest H]. rewrite sapp_cons in H. injection H as H1 _.
      congruence.
Qed.

Lemma contains_spec (needle hay : string) :
  Py.contains needle hay = true
  <-> exists before after, hay = before +:+ needle +:+ after.
Proof.
  induction hay as [|c hay IH].
  - change (Py.contains needle "") with (String.prefix needle "" || false).
    rewrite orb_false_r, prefix_spec. split.
    + intros [rest H]. exists "", rest. exact H.
    + intros [[|b before] [after H]].
      * exists after. exact H.
      * rewrite sapp_cons in H. discriminate H.
  - change (Py.contains needle (String c hay))
      with (String.prefix needle (String c hay) || Py.contains needle hay).
    rewrite orb_true_iff, prefix_spec, IH. split.
    + intros [[rest H] | [before [after H]]].
      * exists "", rest. exact H.
      * exists (String c before), after. rewrite sapp_cons. f_equal. exact H.
    + intros [[|b before] [after H]].
      * left. exists after. exact H.
      * right. rewrite sapp_cons in H. injection H as _ H.
        exists before, after. exact H.
Qed.

Lemma lower_app (s u : string) :
  Py.lower (s +:+ u) = Py.lower s +:+ Py.lower u.
Proof.
  induction s as [|c s IH]; [reflexivity|].
  rewrite sapp_cons. simpl. rewrite IH, sapp_cons. reflexivity.
Qed.

(** A decomposition of the lowered text comes from one of the text. *)
Lemma lower_app_inv (s a b : string) :
  Py.lower s = a +:+ b ->
  exists a' b', s = a' +:+ b' /\ Py.lower a' = a /\ Py.lower b' = b.
Proof.
  revert s. induction a as [|c a IH]; intros s H.
  - exists "", s. repeat split. exact H.
  - destruct s as [|d s]; [discriminate H|].
    simpl in H. rewrite sapp_cons in H. injection H as Hc H.
    destruct (IH s H) as (a' & b' & -> & Ha & Hb).
    exists (String d a'), b'. repeat split; [|exact Hb].
    simpl. rewrite Hc, Ha. reflexivity.
Qed.

(** The test of the extraction loop is case-insensitive containment. *)
Lemma contains_lower_spec (keyword line : string) :
  Py.lower keyword = keyword ->
  Py.contains keyword (Py.lower line) = true
  <-> Spec.ci_substring keyword line.
Proof.
  intros Hk. rewrite contains_spec. unfold Spec.ci_substring. split.
  - intros (before & after & H).
    destruct (lower_app_inv _ _ _ H) as (b' & r & -> & _ & Hr).
    destruct (lower_app_inv _ _ _ Hr) as (m' & a' & -> & Hm & _).
    exists b', m', a'. split; [reflexivity|]. rewrite Hk. exact Hm.
  - intros (before & middle & after & -> & Hm).
    exists (Py.lower before), (Py.lower after).
    rewrite !lower_app, Hm, Hk. reflexivity.
Qed.

Lemma any_keyword_spec (keywords : list string) (line : string) :
  Forall (fun keyword => Py.lower keyword = keyword) keywords ->
  ResearchAgent.any_keyword keywords line = true
  <-> Spec.in_bucket keywords line.
Proof.
  intros Hlow. unfold ResearchAgent.any_keyword, Spec.in_bucket.
  rewrite existsb_exists. rewrite Forall_forall in Hlow.
  split; intros (keyword & Hin & H); exists keyword; split; try exact Hin.
  - apply contains_lower_spec; [|exact H].
    apply Hlow. apply list_elem_of_In. exact Hin.
  - apply contains_lower_spec; [|exact H].
    apply Hlow. apply list_elem_of_In. exact Hin.
Qed.

(** The loop of the [_extract_*] helpers is a filter followed by a map. *)
Lemma extract_loop_go (keywords : list string) (lines found : list string) :
  fold_left
    (fun found line =>
       if ResearchAgent.any_keyword keywords line
       then found ++ [Py.strip line] else found)
    lines found
  = found
      ++ map Py.strip (List.filter (ResearchAgent.any_keyword keywords) lines).
Proof.
  revert found. induction lines as [|line lines IH]; intros found; simpl.
  - rewrite List.app_nil_r. reflexivity.
  - rewrite IH. destruct (ResearchAgent.any_keyword keywords line); simpl.
    + rewrite <- List.app_assoc. reflexivity.
    + reflexivity.
Qed.

Lemma extract_loop_filter (keywords lines : list string) :
  ResearchAgent.extract_loop keywords lines
  = map Py.strip (List.filter (ResearchAgent.any_keyword keywords) lines).
Proof. unfold ResearchAgent.extract_loop. apply extract_loop_go. Qed.

(** Joining the pieces of [split] with the separator gives the text back. *)
Lemma join_cons (sep x : string) (l : list string) :
  l <> [] -> Py.join sep (x :: l) = x +:+ sep +:+ Py.join sep l.
Proof. destruct l; [congruence | reflexivity]. Qed.




(** The words of [split()] are counted by the token starts. *)
Lemma split_ws_go_length (tok : option string) (s : string) :
  length (Py.split_ws_go tok s)
  = match tok with
    | Some _ => S (Spec.count_token_starts false s)
    | None => Spec.count_token_starts true s
    end.
Proof.
  revert tok. induction s as [|c s IH]; intros tok; simpl.
  - destruct tok; reflexivity.
  - destruct (Py.isspace c).
    + destruct tok; simpl; rewrite IH; reflexivity.
    + rewrite IH. destruct tok; reflexivity.
Qed.

Lemma split_ws_length (s : string) :
  length (Py.split_ws s) = Spec.token_count s.
Proof. apply (split_ws_go_length None). Qed.

End StringFacts.

(** ** Facts about the runs of the agents and of the task *)

Section RunFacts.

Variable w : World.

Lemma completion_calls_app (t1 t2 : trace) :
  completion_calls (t1 ++ t2) = completion_calls t1 ++ completion_calls t2.
Proof.
  induction t1 as [|[lg lv msg | who prompt] t1 IH]; simpl;
    [reflexivity | exact IH | rewrite IH; reflexivity].
Qed.

Lemma completion_calls_log lg lv msg (t : trace) :
  completion_calls (Log lg lv msg :: t) = completion_calls t.
Proof. reflexivity. Qed.

Lemma completion_calls_execute_events self prompt r :
  completion_calls (execute_events self prompt r)
  = [(BaseAgent.ident self, prompt)].
Proof. destruct r; reflexivity. Qed.

Lemma execute_task_run (self : BaseAgent.t) (prompt : string) (t : trace) :
  BaseAgent.execute_task w self prompt t
  = (t ++ execute_events self prompt
            (complete w (completion_calls t) (BaseAgent.ident self) prompt),
     outcome_result
       (complete w (completion_calls t) (BaseAgent.ident self) prompt)).
Proof.
  unfold BaseAgent.execute_task, BaseAgent.agent_execute_task, try_except,
    bind, emit, ret, raise, execute_events, outcome_result.
  rewrite completion_calls_app. simpl completion_calls.
  rewrite List.app_nil_r.
  destruct (complete w (completion_calls t) (BaseAgent.ident self) prompt);
    simpl; rewrite <- !List.app_assoc; reflexivity.
Qed.

Lemma research_topic_invalid topic research_depth content_type
  target_audience (t : trace) :
  ResearchAgent.validate_input topic = false ->
  ResearchAgent.research_topic w topic research_depth content_type
    target_audience t
  = (t, inl (ValueError "Topic cannot be empty")).
Proof.
  intros Hv. unfold ResearchAgent.research_topic. rewrite Hv. reflexivity.
Qed.

Lemma research_topic_run topic research_depth content_type target_audience
  (t : trace) :
  ResearchAgent.validate_input topic = true ->
  let prompt :=
    ResearchAgent.task_description topic research_depth content_type
      target_audience in
  let r := complete w (completion_calls t) Researcher prompt in
  ResearchAgent.research_topic w topic research_depth content_type
    target_audience t
  = (t ++ execute_events ResearchAgent.self prompt r,
     match r with
     | inl msg => inl (UpstreamFailure msg)
     | inr out => inr (ResearchAgent._parse_research_result out topic)
     end).
Proof.
  intros Hv prompt r. unfold ResearchAgent.research_topic.
  rewrite Hv. change (negb true) with false. cbv beta iota. unfold bind, ret.
  rewrite execute_task_run. fold prompt. simpl BaseAgent.ident. fold r.
  destruct r; reflexivity.
Qed.

Lemma create_content_draft_run topic content_type target_audience word_count
  tone keywords additional_requirements (t : trace) :
  WriterAgent.validate_input topic = true ->
  let prompt :=
    WriterAgent.task_description topic content_type target_audience
      word_count tone keywords additional_requirements in
  let r := complete w (completion_calls t) Writer prompt in
  WriterAgent.create_content_draft w topic content_type target_audience
    word_count tone keywords additional_requirements t
  = (t ++ execute_events WriterAgent.self prompt r,
     match r with
     | inl msg => inl (UpstreamFailure msg)
     | inr out => inr (Py.strip out)
     end).
Proof.
  intros Hv prompt r. unfold WriterAgent.create_content_draft.
  rewrite Hv. change (negb true) with false. cbv beta iota. unfold bind, ret.
  rewrite execute_task_run. fold prompt. simpl BaseAgent.ident. fold r.
  destruct r; reflexivity.
Qed.

Lemma create_draft_run topic content_type target_audience word_count tone
  keywords research_data (t : trace) :
  WriterAgent.validate_input topic = true ->
  let prompt :=
    draft_prompt topic content_type target_audience word_count tone keywords
      research_data in
  let r := complete w (completion_calls t) Writer prompt in
  ContentCreationTask._create_draft w topic content_type target_audience
    word_count tone keywords research_data t
  = (t ++ Log ContentCreationTask.logger INFO
            ("Creating content draft for topic: " +:+ topic)
          :: execute_events WriterAgent.self prompt r,
     match r with
     | inl msg => inl (UpstreamFailure msg)
     | inr out =>
         inr {| draft_content := Py.strip out;
                research_incorporated := true;
                word_count_actual :=
                  Z.of_nat (length (Py.split_ws (Py.strip out)));
                keywords_used :=
                  ContentCreationTask.keywords_or_empty keywords |}
     end).
Proof.
  intros Hv prompt r. unfold ContentCreationTask._create_draft, bind, emit.
  rewrite create_content_draft_run by exact Hv.
  rewrite completion_calls_app. simpl completion_calls.
  rewrite List.app_nil_r. fold (draft_prompt topic content_type
    target_audience word_count tone keywords research_data).
  fold prompt. fold r. rewrite <- List.app_assoc.
  destruct r; reflexivity.
Qed.

Lemma conduct_research_run topic content_type target_audience
  research_depth (t : trace) :
  ResearchAgent.validate_input topic = true ->
  let prompt :=
    ResearchAgent.task_description topic research_depth content_type
      target_audience in
  let r := complete w (completion_calls t) Researcher prompt in
  ContentCreationTask._conduct_research w topic content_type target_audience
    research_depth t
  = (t ++ Log ContentCreationTask.logger INFO
            ("Conducting research for topic: " +:+ topic)
          :: execute_events ResearchAgent.self prompt r,
     match r with
     | inl msg => inl (UpstreamFailure msg)
     | inr out => inr (ResearchAgent._parse_research_result out topic)
     end).
Proof.
  intros Hv prompt r.
  unfold ContentCreationTask._conduct_research, bind, emit, ret.
  rewrite research_topic_run by exact Hv.
  rewrite completion_calls_app. simpl completion_calls.
  rewrite List.app_nil_r. fold prompt. fold r. rewrite <- List.app_assoc.
  destruct r; reflexivity.
Qed.

(** A topic that is blank after stripping: the research agent refuses it
    before it talks to its completion client. *)
Lemma create_content_invalid topic content_type target_audience word_count
  tone keywords research_depth (t : trace) :
  ResearchAgent.validate_input topic = false ->
  ContentCreationTask.create_content w topic content_type target_audience
    word_count tone keywords research_depth t
  = (t ++ [Log ContentCreationTask.logger INFO
             ("Starting content creation for topic: " +:+ topic);
           Log ContentCreationTask.logger INFO
             ("Conducting research for topic: " +:+ topic);
           Log ContentCreationTask.logger ERROR
             "Error in content creation: Topic cannot be empty"],
     inl (ValueError "Topic cannot be empty")).
Proof.
  intros Hv.
  unfold ContentCreationTask.create_content,
    ContentCreationTask._conduct_research, try_except, bind, emit, ret, raise.
  rewrite research_topic_invalid by exact Hv.
  simpl. rewrite <- !List.app_assoc. reflexivity.
Qed.

(** The whole run for a topic that passes validation. *)
Lemma create_content_run topic content_type target_audience word_count tone
  keywords research_depth (t : trace) :
  ResearchAgent.validate_input topic = true ->
  let rp :=
    ResearchAgent.task_description topic research_depth content_type
      target_audience in
  let r1 := complete w (completion_calls t) Researcher rp in
  let t1 :=
    t ++ [Log ContentCreationTask.logger INFO
            ("Starting content creation for topic: " +:+ topic);
          Log ContentCreationTask.logger INFO
            ("Conducting research for topic: " +:+ topic)]
      ++ execute_events ResearchAgent.self rp r1 in
  ContentCreationTask.create_content w topic content_type target_audience
    word_count tone keywords research_depth t
  = match r1 with
    | inl msg =>
        (t1 ++ [Log ContentCreationTask.logger ERROR
                  ("Error in content creation: " +:+ msg)],
         inl (UpstreamFailure msg))
    | inr text =>
        let rd := ResearchAgent._parse_research_result text topic in
        let wp :=
          draft_prompt topic content_type target_audience word_count tone
            keywords rd in
        let r2 :=
          complete w (completion_calls t ++ [(Researcher, rp)]) Writer wp in
        let t2 :=
          t1 ++ Log ContentCreationTask.logger INFO
                  ("Creating content draft for topic: " +:+ topic)
                :: execute_events WriterAgent.self wp r2 in
        match r2 with
        | inl msg =>
            (t2 ++ [Log ContentCreationTask.logger ERROR
                      ("Error in content creation: " +:+ msg)],
             inl (UpstreamFailure msg))
        | inr out =>
            (t2 ++ [Log ContentCreationTask.logger INFO
                      "Content creation completed successfully"],
             inr {| topic := topic;
                    content_type := content_type;
                    target_audience := target_audience;
                    word_count := word_count;
                    tone := tone;
                    keywords := keywords;
                    research_data := rd;
                    content :=
                      {| draft_content := Py.strip out;
                         research_incorporated := true;
                         word_count_actual :=
                           Z.of_nat (length (Py.split_ws (Py.strip out)));
                         keywords_used :=
                           ContentCreationTask.keywords_or_empty keywords |};
                    creation_timestamp := now w t2;
                    status := "completed" |})
        end
    end.
Proof.
  intros Hv rp r1 t1.
  unfold ContentCreationTask.create_content, try_except, bind.
  unfold emit at 1.
  rewrite conduct_research_run by exact Hv.
  rewrite completion_calls_app. simpl completion_calls.
  rewrite List.app_nil_r. fold rp. fold r1.
  assert (Ht1 : (t ++ [Log ContentCreationTask.logger INFO
                         ("Starting content creation for topic: " +:+ topic)])
                ++ Log ContentCreationTask.logger INFO
                     ("Conducting research for topic: " +:+ topic)
                   :: execute_events ResearchAgent.self rp r1 = t1).
  { unfold t1. rewrite <- List.app_assoc. reflexivity. }
  rewrite Ht1.
  assert (Hc1 : completion_calls t1 = completion_calls t ++ [(Researcher, rp)]).
  { unfold t1. rewrite !completion_calls_app.
    rewrite completion_calls_execute_events. reflexivity. }
  destruct r1 as [msg | text] eqn:Hr1.
  - reflexivity.
  - rewrite create_draft_run by exact Hv.
    rewrite Hc1.
    destruct (complete w (completion_calls t ++ [(Researcher, rp)]) Writer
                (draft_prompt topic content_type target_audience word_count
                   tone keywords
                   (ResearchAgent._parse_research_result text topic)))
      as [msg | out]; reflexivity.
Qed.

End RunFacts.

(** ** Properties of the workflow *)

(** C1. The requirements block holds the first five key facts, the first three
    sources and the first three insights, each group comma-joined on its own
    labelled line, and this block is what the Draft step hands to the Writer;
    with more than five key facts, exactly the first five appear. *)
Theorem requirements_block_takes_prefixes
  (w : World) (topic content_type target_audience : string) (word_count : Z)
  (tone : string) (keywords : option (list string))
  (research_data : gmap string pyval) (kf src ins : list string) (t : trace) :
  research_data !! "key_facts" = Some (PList kf) ->
  research_data !! "sources" = Some (PList src) ->
  research_data !! "insights" = Some (PList ins) ->
  WriterAgent.validate_input topic = true ->
  let block :=
    "Key Facts: " +:+ Py.join ", " (take 5 kf) +:+ Py.nl
      +:+ "Credible Sources: " +:+ Py.join ", " (take 3 src) +:+ Py.nl
      +:+ "Key Insights: " +:+ Py.join ", " (take 3 ins) in
  ContentCreationTask._prepare_research_requirements research_data = block
  /\ completion_calls
       (fst (ContentCreationTask._create_draft w topic content_type
               target_audience word_count tone keywords research_data t))
     = completion_calls t
         ++ [(Writer,
              WriterAgent.task_description topic content_type target_audience
                word_count tone keywords (Some block))]
  /\ (forall a b c d e f rest,
        kf = a :: b :: c :: d :: e :: f :: rest ->
        Py.join ", " (take 5 kf)
        = a +:+ ", " +:+ b +:+ ", " +:+ c +:+ ", " +:+ d +:+ ", " +:+ e).
Proof.
  intros Hkf Hsrc Hins Hv block.
  assert (Hblock :
    ContentCreationTask._prepare_research_requirements research_data = block).
  { unfold ContentCreationTask._prepare_research_requirements.
    rewrite Hkf, Hsrc, Hins. unfold block. simpl.
    rewrite !sapp_assoc. reflexivity. }
  split; [exact Hblock|]. split.
  - rewrite create_draft_run by exact Hv. simpl fst.
    rewrite completion_calls_app, completion_calls_log.
    rewrite completion_calls_execute_events.
    unfold draft_prompt. rewrite Hblock. reflexivity.
  - intros a b c d e f rest ->. reflexivity.
Qed.

Lemma requirements_block_takes_prefixes_witness :
  ContentCreationTask._prepare_research_requirements Sample.stub_research
  = "Key Facts: f1, f2, f3, f4, f5" +:+ Py.nl
      +:+ "Credible Sources: s1, s2, s3" +:+ Py.nl +:+ "Key Insights: ".
Proof.
  destruct (requirements_block_takes_prefixes Sample.world
              "electric vehicles" "article" "general" 500 "professional"
              (Some ["EV"; "battery"]) Sample.stub_research
              ["f1"; "f2"; "f3"; "f4"; "f5"; "f6"; "f7"]
              ["s1"; "s2"; "s3"; "s4"] [] [])
    as [H _]; [reflexivity | reflexivity | reflexivity | reflexivity |].
  exact H.
Defined.

(** C2. In every record that [create_content] produces, [word_count_actual]
    is the number of whitespace-separated tokens of [draft_content], whatever
    the requested [word_count]; the text "one two three" has three tokens. *)
Theorem word_count_actual_counts_tokens
  (w : World) (topic content_type target_audience : string) (word_count : Z)
  (tone : string) (keywords : option (list string)) (research_depth : string)
  (t t' : trace) (record : ContentRecord) :
  ContentCreationTask.create_content w topic content_type target_audience
    word_count tone keywords research_depth t = (t', inr record) ->
  word_count_actual (content record)
  = Z.of_nat (Spec.token_count (draft_content (content record)))
  /\ Spec.token_count "one two three" = 3.
Proof.
  intros Hrun. split; [|reflexivity].
  destruct (ResearchAgent.validate_input topic) eqn:Hv.
  - rewrite create_content_run in Hrun by exact Hv.
    destruct (complete w (completion_calls t) Researcher _) as [msg | text];
      [discriminate Hrun|].
    cbv zeta in Hrun.
    destruct (complete w _ Writer _) as [msg | out]; [discriminate Hrun|].
    injection Hrun as _ <-. simpl.
    rewrite split_ws_length. reflexivity.
  - rewrite create_content_invalid in Hrun by exact Hv. discriminate Hrun.
Qed.

Lemma word_count_actual_counts_tokens_witness :
  exists t' record,
    ContentCreationTask.create_content Sample.world "electric vehicles"
      "article" "general" 500 "professional" (Some ["EV"; "battery"])
      "comprehensive" [] = (t', inr record)
    /\ draft_content (content record) = "one two  three"
    /\ word_count_actual (content record) = 3%Z.
Proof.
  eexists _, _. split.
  - exact (create_content_run Sample.world "electric vehicles" "article"
             "general" 500 "professional" (Some ["EV"; "battery"])
             "comprehensive" [] eq_refl).
  - split; [reflexivity|].
    exact (proj1 (word_count_actual_counts_tokens Sample.world
                    "electric vehicles" "article" "general" 500
                    "professional" (Some ["EV"; "battery"]) "comprehensive"
                    [] _ _
                    (create_content_run Sample.world "electric vehicles"
                       "article" "general" 500 "professional"
                       (Some ["EV"; "battery"]) "comprehensive" [] eq_refl))).
Defined.

(** C3. A topic that is empty once stripped makes [create_content] raise the
    invalid-input error ([ValueError]) and no completion call, of the Research
    agent or of the Writer agent, is made: the trace only gains log lines. *)
Theorem blank_topic_rejected_without_completion
  (w : World) (topic content_type target_audience : string) (word_count : Z)
  (tone : string) (keywords : option (list string)) (research_depth : string)
  (t : trace) :
  Py.strip topic = "" ->
  exists t',
    ContentCreationTask.create_content w topic content_type target_audience
      word_count tone keywords research_depth t
    = (t', inl (ValueError "Topic cannot be empty"))
    /\ completion_calls t' = completion_calls t.
Proof.
  intros Hblank.
  assert (Hv : ResearchAgent.validate_input topic = false).
  { unfold ResearchAgent.validate_input. rewrite Hblank. reflexivity. }
  eexists. split; [apply create_content_invalid; exact Hv|].
  rewrite completion_calls_app. simpl. apply List.app_nil_r.
Qed.

Lemma blank_topic_rejected_without_completion_witness :
  exists t',
    ContentCreationTask.create_content Sample.world "   " "article" "general"
      500 "professional" None "comprehensive" []
    = (t', inl (ValueError "Topic cannot be empty"))
    /\ completion_calls t' = [].
Proof.
  apply (blank_topic_rejected_without_completion Sample.world "   " "article"
           "general" 500 "professional" None "comprehensive" []).
  reflexivity.
Defined.

(** C4. When the completion call of the Research step raises, the Writer is
    never called, [create_content] raises that same failure, and the run ends
    in an exception, so no record, not even a partial one, is returned. *)
Theorem research_failure_aborts_run
  (w : World) (topic content_type target_audience : string) (word_count : Z)
  (tone : string) (keywords : option (list string)) (research_depth : string)
  (t : trace) (msg : string) :
  ResearchAgent.validate_input topic = true ->
  complete w (completion_calls t) Researcher
    (ResearchAgent.task_description topic research_depth content_type
       target_audience) = inl msg ->
  exists t',
    ContentCreationTask.create_content w topic content_type target_audience
      word_count tone keywords research_depth t
    = (t', inl (UpstreamFailure msg))
    /\ completion_calls t'
       = completion_calls t
           ++ [(Researcher,
                ResearchAgent.task_description topic research_depth
                  content_type target_audience)].
Proof.
  intros Hv Hfail. rewrite create_content_run by exact Hv. rewrite Hfail.
  eexists. split; [reflexivity|].
  rewrite !completion_calls_app, completion_calls_execute_events.
  simpl. rewrite List.app_nil_r. reflexivity.
Qed.

Lemma research_failure_aborts_run_witness :
  exists t',
    ContentCreationTask.create_content Sample.failing_world
      "electric vehicles" "article" "general" 500 "professional"
      (Some ["EV"; "battery"]) "comprehensive" []
    = (t', inl (UpstreamFailure "rate limit"))
    /\ completion_calls t'
       = [(Researcher,
           ResearchAgent.task_description "electric vehicles" "comprehensive"
             "article" "general")].
Proof.
  apply (research_failure_aborts_run Sample.failing_world "electric vehicles"
           "article" "general" 500 "professional" (Some ["EV"; "battery"])
           "comprehensive" [] "rate limit");
    reflexivity.
Defined.

(** C5, as the code has it. The research result parsed from the empty text has
    empty key facts, sources and insights, yet its requirements block is not
    the empty string. *)
Lemma empty_sequences_block_not_empty :
  ResearchAgent._parse_research_result "" "electric vehicles" !! "key_facts"
  = Some (PList [])
  /\ ResearchAgent._parse_research_result "" "electric vehicles" !! "sources"
     = Some (PList [])
  /\ ResearchAgent._parse_research_result "" "electric vehicles" !! "insights"
     = Some (PList [])
  /\ ContentCreationTask._prepare_research_requirements
       (ResearchAgent._parse_research_result "" "electric vehicles")
     <> "".
Proof.
  split; [reflexivity|]. split; [reflexivity|]. split; [reflexivity|].
  vm_compute. discriminate.
Qed.

(** C5, amended. For a research result whose key facts, sources and insights
    are empty sequences, the requirements block is the three labels, each on
    its own line with nothing after it; the Draft step hands that block to the
    Writer and, when the Writer's completion call answers, returns its draft
    without error. *)
Theorem empty_sequences_block_is_three_labels
  (w : World) (topic content_type target_audience : string) (word_count : Z)
  (tone : string) (keywords : option (list string))
  (research_data : gmap string pyval) (t : trace) (out : string) :
  research_data !! "key_facts" = Some (PList []) ->
  research_data !! "sources" = Some (PList []) ->
  research_data !! "insights" = Some (PList []) ->
  WriterAgent.validate_input topic = true ->
  complete w (completion_calls t) Writer
    (draft_prompt topic content_type target_audience word_count tone keywords
       research_data) = inr out ->
  ContentCreationTask._prepare_research_requirements research_data
  = "Key Facts: " +:+ Py.nl +:+ "Credible Sources: " +:+ Py.nl
      +:+ "Key Insights: "
  /\ exists t' draft,
       ContentCreationTask._create_draft w topic content_type target_audience
         word_count tone keywords research_data t = (t', inr draft)
       /\ draft_content draft = Py.strip out
       /\ completion_calls t'
          = completion_calls t
              ++ [(Writer,
                   WriterAgent.task_description topic content_type
                     target_audience word_count tone keywords
                     (Some ("Key Facts: " +:+ Py.nl +:+ "Credible Sources: "
                              +:+ Py.nl +:+ "Key Insights: ")))].
Proof.
  intros Hkf Hsrc Hins Hv Hout.
  assert (Hblock :
    ContentCreationTask._prepare_research_requirements research_data
    = "Key Facts: " +:+ Py.nl +:+ "Credible Sources: " +:+ Py.nl
        +:+ "Key Insights: ").
  { unfold ContentCreationTask._prepare_research_requirements.
    rewrite Hkf, Hsrc, Hins. reflexivity. }
  split; [exact Hblock|].
  rewrite create_draft_run by exact Hv. rewrite Hout.
  eexists _, _. split; [reflexivity|]. split; [reflexivity|].
  rewrite completion_calls_app, completion_calls_log.
  rewrite completion_calls_execute_events.
  unfold draft_prompt. rewrite Hblock. reflexivity.
Qed.

Lemma empty_sequences_block_is_three_labels_witness :
  ContentCreationTask._prepare_research_requirements Sample.empty_research
  = "Key Facts: " +:+ Py.nl +:+ "Credible Sources: " +:+ Py.nl
      +:+ "Key Insights: "
  /\ exists t' draft,
       ContentCreationTask._create_draft Sample.world "electric vehicles"
         "article" "general" 500 "professional" None Sample.empty_research []
       = (t', inr draft)
       /\ draft_content draft = Py.strip "  one two  three "
       /\ completion_calls t'
          = [] ++ [(Writer,
                    WriterAgent.task_description "electric vehicles" "article"
                      "general" 500 "professional" None
                      (Some ("Key Facts: " +:+ Py.nl +:+ "Credible Sources: "
                               +:+ Py.nl +:+ "Key Insights: ")))].
Proof.
  apply (empty_sequences_block_is_three_labels Sample.world
           "electric vehicles" "article" "general" 500 "professional" None
           Sample.empty_research [] "  one two  three ");
    reflexivity.
Defined.

(** The requirements block, when the Writer is given one, stands in the
    Writer's prompt. *)
Lemma block_in_writer_prompt topic content_type target_audience word_count
  tone keywords (block : string) :
  Py.contains block
    (WriterAgent.task_description topic content_type target_audience
       word_count tone keywords (Some block)) = true.
Proof.
  apply contains_spec. unfold WriterAgent.task_description.
  destruct block as [|c block].
  - eexists "", _. reflexivity.
  - exists (WriterAgent.specifications topic content_type target_audience
              word_count tone
            +:+ WriterAgent.keywords_line keywords
            +:+ Py.nl +:+ "- Additional Requirements: "),
      WriterAgent.quality_checklist.
    unfold WriterAgent.requirements_line. rewrite !sapp_assoc. reflexivity.
Qed.

(** The requirements block of a parsed research answer, written out. *)
Lemma requirements_of_parsed_answer (text topic : string) :
  ContentCreationTask._prepare_research_requirements
    (ResearchAgent._parse_research_result text topic)
  = "Key Facts: "
      +:+ Py.join ", " (take 5 (ResearchAgent._extract_key_facts text))
      +:+ Py.nl +:+ "Credible Sources: "
      +:+ Py.join ", " (take 3 (ResearchAgent._extract_sources text))
      +:+ Py.nl +:+ "Key Insights: "
      +:+ Py.join ", " (take 3 (ResearchAgent._extract_insights text)).
Proof.
  assert (Hkf : ResearchAgent._parse_research_result text topic !! "key_facts"
                = Some (PList (ResearchAgent._extract_key_facts text)))
    by reflexivity.
  assert (Hsrc : ResearchAgent._parse_research_result text topic !! "sources"
                 = Some (PList (ResearchAgent._extract_sources text)))
    by reflexivity.
  assert (Hins : ResearchAgent._parse_research_result text topic !! "insights"
                 = Some (PList (ResearchAgent._extract_insights text)))
    by reflexivity.
  unfold ContentCreationTask._prepare_research_requirements.
  rewrite Hkf, Hsrc, Hins. simpl. rewrite !sapp_assoc. reflexivity.
Qed.

(** C6. For a topic that is not blank, [create_content] first calls the
    Research completion and only once that call has answered calls the Writer
    completion. The Writer's prompt is built from the research answer: it
    carries, as additional requirements, the block made of the first five key
    facts, the first three sources and the first three insights extracted
    from the answer, each group comma-joined on its labelled line. If the
    Research call raises, the Writer is not called at all. *)
Theorem research_precedes_draft
  (w : World) (topic content_type target_audience : string) (word_count : Z)
  (tone : string) (keywords : option (list string)) (research_depth : string)
  (t : trace) :
  ResearchAgent.validate_input topic = true ->
  let rp :=
    ResearchAgent.task_description topic research_depth content_type
      target_audience in
  let t' :=
    fst (ContentCreationTask.create_content w topic content_type
           target_audience word_count tone keywords research_depth t) in
  match complete w (completion_calls t) Researcher rp with
  | inl _ => completion_calls t' = completion_calls t ++ [(Researcher, rp)]
  | inr text =>
      let block :=
        "Key Facts: "
          +:+ Py.join ", " (take 5 (ResearchAgent._extract_key_facts text))
          +:+ Py.nl +:+ "Credible Sources: "
          +:+ Py.join ", " (take 3 (ResearchAgent._extract_sources text))
          +:+ Py.nl +:+ "Key Insights: "
          +:+ Py.join ", " (take 3 (ResearchAgent._extract_insights text)) in
      let wp :=
        WriterAgent.task_description topic content_type target_audience
          word_count tone keywords (Some block) in
      completion_calls t'
      = completion_calls t ++ [(Researcher, rp); (Writer, wp)]
      /\ Py.contains block wp = true
      /\ block <> ""
  end.
Proof.
  intros Hv rp t'. unfold t'. rewrite create_content_run by exact Hv.
  fold rp. destruct (complete w (completion_calls t) Researcher rp)
    as [msg | text].
  - cbn [fst]. rewrite !completion_calls_app, completion_calls_execute_events.
    simpl. rewrite List.app_nil_r. reflexivity.
  - split; [|split; [apply block_in_writer_prompt | discriminate]].
    cbv zeta. unfold draft_prompt. rewrite requirements_of_parsed_answer.
    destruct (complete w _ Writer _) as [msg | out]; cbn [fst];
      rewrite !completion_calls_app, completion_calls_log,
        !completion_calls_execute_events;
      simpl; rewrite List.app_nil_r, <- List.app_assoc; reflexivity.
Qed.

Lemma research_precedes_draft_witness :
  completion_calls
    (fst (ContentCreationTask.create_content Sample.world "electric vehicles"
            "article" "general" 500 "professional" (Some ["EV"; "battery"])
            "comprehensive" []))
  = [(Researcher,
      ResearchAgent.task_description "electric vehicles" "comprehensive"
        "article" "general");
     (Writer,
      WriterAgent.task_description "electric vehicles" "article" "general" 500
        "professional" (Some ["EV"; "battery"])
        (Some ("Key Facts: Fact: sales data grew" +:+ Py.nl
               +:+ "Credible Sources: A study found an insight" +:+ Py.nl
               +:+ "Key Insights: A study found an insight")))]
  /\ Py.contains
       ("Key Facts: Fact: sales data grew" +:+ Py.nl
        +:+ "Credible Sources: A study found an insight" +:+ Py.nl
        +:+ "Key Insights: A study found an insight")
       (WriterAgent.task_description "electric vehicles" "article" "general"
          500 "professional" (Some ["EV"; "battery"])
          (Some ("Key Facts: Fact: sales data grew" +:+ Py.nl
                 +:+ "Credible Sources: A study found an insight" +:+ Py.nl
                 +:+ "Key Insights: A study found an insight")))
     = true.
Proof.
  destruct (research_precedes_draft Sample.world "electric vehicles" "article"
              "general" 500 "professional" (Some ["EV"; "battery"])
              "comprehensive" [] eq_refl) as (Hcalls & Hin & _).
  split; [exact Hcalls | exact Hin].
Defined.



(** C8, as the code has it. The research result has no field [raw_text]: the
    set of its keys is not the one the specification lists. *)
Lemma research_result_has_no_raw_text :
  dom (ResearchAgent._parse_research_result Sample.research_text
         "electric vehicles")
  <> ({["topic"; "raw_text"; "key_facts"; "sources"; "insights";
        "recommendations"]} : gset string).
Proof.
  intros H.
  assert (Hin : "raw_text"
                ∈ dom (ResearchAgent._parse_research_result
                         Sample.research_text "electric vehicles"))
    by (rewrite H; set_solver).
  apply elem_of_dom in Hin. destruct Hin as [v Hv].
  vm_compute in Hv. discriminate Hv.
Qed.

(** C8, amended. The result of a research run is a dictionary with exactly
    the keys [topic], [research_findings], [key_facts], [sources], [insights]
    and [recommendations]: the topic, the raw text the completion client
    returned, and the four sequences of strings extracted from that text. *)
Theorem research_result_fields
  (w : World) (topic research_depth content_type target_audience : string)
  (t t' : trace) (result : gmap string pyval) :
  ResearchAgent.research_topic w topic research_depth content_type
    target_audience t = (t', inr result) ->
  dom result
  = ({["topic"; "research_findings"; "key_facts"; "sources"; "insights";
       "recommendations"]} : gset string)
  /\ result !! "topic" = Some (PStr topic)
  /\ exists text,
       complete w (completion_calls t) Researcher
         (ResearchAgent.task_description topic research_depth content_type
            target_audience) = inr text
       /\ result !! "research_findings" = Some (PStr text)
       /\ result !! "key_facts"
          = Some (PList (ResearchAgent._extract_key_facts text))
       /\ result !! "sources"
          = Some (PList (ResearchAgent._extract_sources text))
       /\ result !! "insights"
          = Some (PList (ResearchAgent._extract_insights text))
       /\ result !! "recommendations"
          = Some (PList (ResearchAgent._extract_recommendations text)).
Proof.
  intros Hrun.
  destruct (ResearchAgent.validate_input topic) eqn:Hv.
  - rewrite research_topic_run in Hrun by exact Hv.
    destruct (complete w (completion_calls t) Researcher _) as [msg | text]
      eqn:Hc; [discriminate Hrun|].
    injection Hrun as _ <-.
    split.
    { unfold ResearchAgent._parse_research_result.
      rewrite dom_list_to_map_L. simpl. set_solver. }
    split; [reflexivity|].
    exists text. repeat split; reflexivity.
  - rewrite research_topic_invalid in Hrun by exact Hv. discriminate Hrun.
Qed.

Lemma research_result_fields_witness :
  exists t' result,
    ResearchAgent.research_topic Sample.world "electric vehicles"
      "comprehensive" "article" "general" [] = (t', inr result)
    /\ dom result
       = ({["topic"; "research_findings"; "key_facts"; "sources"; "insights";
            "recommendations"]} : gset string)
    /\ result !! "research_findings" = Some (PStr Sample.research_text).
Proof.
  eexists _, _. split.
  - exact (research_topic_run Sample.world "electric vehicles"
             "comprehensive" "article" "general" [] eq_refl).
  - split; [|reflexivity].
    exact (proj1 (research_result_fields Sample.world "electric vehicles"
                    "comprehensive" "article" "general" [] _ _
                    (research_topic_run Sample.world "electric vehicles"
                       "comprehensive" "article" "general" [] eq_refl))).
Defined.

(** C9. A request whose [X-API-Key] header is missing or differs from the
    configured secret is rejected with the 401 authorization error by the
    security dependency; the path operation and the task behind it are never
    entered, so the trace gains nothing: no log line and no completion call. *)
Theorem bad_api_key_rejected_before_task
  (w : World) (settings : Settings) (api_key : option string)
  (request : ContentRequest) (t : trace) :
  api_key <> Some (secret_key settings) ->
  Api.post_create w settings api_key request t
  = (t, inl (HTTPException 401 "Invalid API Key")).
Proof.
  intros Hbad. unfold Api.post_create, Api.get_api_key, bind.
  destruct (decide (api_key = Some (secret_key settings))) as [Heq | _];
    [contradiction | reflexivity].
Qed.

Lemma bad_api_key_rejected_before_task_witness :
  Api.post_create Sample.world Sample.settings (Some "guess") Sample.request []
  = ([], inl (HTTPException 401 "Invalid API Key")).
Proof.
  apply (bad_api_key_rejected_before_task Sample.world Sample.settings
           (Some "guess") Sample.request []).
  discriminate.
Defined.

(** C10. Every draft result the Draft step returns has [research_incorporated]
    set, whatever the research data held, and its [keywords_used] is the
    requested keyword list when that list is not empty and the empty list
    when the keywords are empty or absent. *)
Theorem draft_result_flags
  (w : World) (topic content_type target_audience : string) (word_count : Z)
  (tone : string) (keywords : option (list string))
  (research_data : gmap string pyval) (t t' : trace) (draft : DraftResult) :
  ContentCreationTask._create_draft w topic content_type target_audience
    word_count tone keywords research_data t = (t', inr draft) ->
  research_incorporated draft = true
  /\ (forall l, keywords = Some l -> l <> [] -> keywords_used draft = l)
  /\ (keywords = Some [] \/ keywords = None -> keywords_used draft = []).
Proof.
  intros Hrun.
  destruct (WriterAgent.validate_input topic) eqn:Hv.
  - rewrite create_draft_run in Hrun by exact Hv.
    destruct (complete w (completion_calls t) Writer _) as [msg | out];
      [discriminate Hrun|].
    injection Hrun as _ <-. cbn [research_incorporated keywords_used].
    split; [reflexivity|]. split.
    + intros l -> Hne. destruct l; [contradiction | reflexivity].
    + intros [-> | ->]; reflexivity.
  - unfold ContentCreationTask._create_draft,
      WriterAgent.create_content_draft, bind, emit, raise in Hrun.
    rewrite Hv in Hrun. discriminate Hrun.
Qed.

Lemma draft_result_flags_witness :
  exists t' draft,
    ContentCreationTask._create_draft Sample.silent_world "electric vehicles"
      "article" "general" 500 "professional" (Some ["EV"; "battery"])
      Sample.empty_research [] = (t', inr draft)
    /\ research_incorporated draft = true
    /\ keywords_used draft = ["EV"; "battery"].
Proof.
  eexists _, _. split.
  - exact (create_draft_run Sample.silent_world "electric vehicles" "article"
             "general" 500 "professional" (Some ["EV"; "battery"])
             Sample.empty_research [] eq_refl).
  - destruct (draft_result_flags Sample.silent_world "electric vehicles"
                "article" "general" 500 "professional"
                (Some ["EV"; "battery"]) Sample.empty_research [] _ _
                (create_draft_run Sample.silent_world "electric vehicles"
                   "article" "general" 500 "professional"
                   (Some ["EV"; "battery"]) Sample.empty_research [] eq_refl))
      as (Hflag & Hkw & _).
    split; [exact Hflag|].
    apply (Hkw ["EV"; "battery"]); [reflexivity | discriminate].
Defined.

(** ** More facts about stripping, blank strings and token counts *)

Section StripFacts.

Lemma lstrip_empty_iff (s : string) :
  Py.lstrip s = "" <-> Py.all_chars Py.isspace s = true.
Proof.
  induction s as [|c s IH]; simpl.
  - split; reflexivity.
  - destruct (Py.isspace c); simpl; [exact IH | split; discriminate].
Qed.

Lemma rstrip_cons (c : ascii) (s : string) :
  Py.rstrip (String c s)
  = match Py.rstrip s with
    | EmptyString => if Py.isspace c then EmptyString else String c EmptyString
    | String d r => String c (String d r)
    end.
Proof. reflexivity. Qed.

Lemma rstrip_empty_iff (s : string) :
  Py.rstrip s = "" <-> Py.all_chars Py.isspace s = true.
Proof.
  induction s as [|c s IH].
  - split; reflexivity.
  - rewrite rstrip_cons. cbn [Py.all_chars].
    destruct (Py.rstrip s) as [|d r]; destruct (Py.isspace c); simpl.
    + split; [intros _; apply IH; reflexivity | reflexivity].
    + split; discriminate.
    + split; [discriminate | intros H; apply IH in H; discriminate H].
    + split; discriminate.
Qed.

Lemma all_space_lstrip (s : string) :
  Py.all_chars Py.isspace (Py.lstrip s) = Py.all_chars Py.isspace s.
Proof.
  induction s as [|c s IH]; [reflexivity|]. simpl.
  destruct (Py.isspace c) eqn:Hc; simpl; [exact IH | rewrite Hc; reflexivity].
Qed.

Lemma strip_empty_iff (s : string) :
  Py.strip s = "" <-> Py.all_chars Py.isspace s = true.
Proof.
  unfold Py.strip. rewrite rstrip_empty_iff, all_space_lstrip. reflexivity.
Qed.

Lemma first_char_lstrip (s : string) (c : ascii) :
  Py.first_char (Py.lstrip s) = Some c -> Py.isspace c = false.
Proof.
  induction s as [|a s IH]; simpl; [discriminate|].
  destruct (Py.isspace a) eqn:Ha; [exact IH|].
  simpl. intros H. injection H as <-. exact Ha.
Qed.

Lemma first_char_rstrip (s : string) (c : ascii) :
  Py.first_char (Py.rstrip s) = Some c -> Py.first_char s = Some c.
Proof.
  destruct s as [|a s]; [discriminate|]. rewrite rstrip_cons.
  destruct (Py.rstrip s); [destruct (Py.isspace a)|]; simpl;
    solve [discriminate | intros H; exact H].
Qed.

Lemma last_char_rstrip (s : string) (c : ascii) :
  Py.last_char (Py.rstrip s) = Some c -> Py.isspace c = false.
Proof.
  induction s as [|a s IH]; [discriminate|]. rewrite rstrip_cons.
  destruct (Py.rstrip s) as [|d r].
  - destruct (Py.isspace a) eqn:Ha; simpl; [discriminate|].
    intros H. injection H as <-. exact Ha.
  - intros H. apply IH. exact H.
Qed.

Lemma first_char_strip (s : string) (c : ascii) :
  Py.first_char (Py.strip s) = Some c -> Py.isspace c = false.
Proof.
  unfold Py.strip. intros H. apply first_char_rstrip in H.
  apply (first_char_lstrip s). exact H.
Qed.

Lemma last_char_strip (s : string) (c : ascii) :
  Py.last_char (Py.strip s) = Some c -> Py.isspace c = false.
Proof. unfold Py.strip. apply last_char_rstrip. Qed.

Lemma lstrip_fixed (s : string) :
  (forall c, Py.first_char s = Some c -> Py.isspace c = false) ->
  Py.lstrip s = s.
Proof.
  destruct s as [|a s]; [reflexivity|]. intros H. simpl.
  rewrite (H a eq_refl). reflexivity.
Qed.

Lemma rstrip_fixed (s : string) :
  (forall c, Py.last_char s = Some c -> Py.isspace c = false) ->
  Py.rstrip s = s.
Proof.
  induction s as [|a s IH]; [reflexivity|]. intros H.
  rewrite rstrip_cons. destruct s as [|b s].
  - simpl. rewrite (H a eq_refl). reflexivity.
  - rewrite IH; [reflexivity|]. intros c Hc. apply H. exact Hc.
Qed.

Lemma strip_idempotent (s : string) : Py.strip (Py.strip s) = Py.strip s.
Proof.
  unfold Py.strip at 1.
  rewrite (lstrip_fixed (Py.strip s)) by apply first_char_strip.
  apply rstrip_fixed. apply last_char_strip.
Qed.

Lemma count_cons (b : bool) (c : ascii) (s : string) :
  Spec.count_token_starts b (String c s)
  = if Py.isspace c then Spec.count_token_starts true s
    else ((if b then 1 else 0) + Spec.count_token_starts false s)%nat.
Proof. reflexivity. Qed.

Lemma count_all_space (b : bool) (s : string) :
  Py.all_chars Py.isspace s = true -> Spec.count_token_starts b s = 0%nat.
Proof.
  revert b. induction s as [|c s IH]; intros b; [reflexivity|].
  cbn [Py.all_chars]. rewrite count_cons.
  destruct (Py.isspace c); simpl; [apply IH | discriminate].
Qed.

Lemma count_lstrip (s : string) :
  Spec.count_token_starts true (Py.lstrip s) = Spec.count_token_starts true s.
Proof.
  induction s as [|c s IH]; [reflexivity|]. simpl.
  destruct (Py.isspace c) eqn:Hc; [exact IH|].
  rewrite count_cons, Hc. reflexivity.
Qed.

Lemma count_rstrip (b : bool) (s : string) :
  Spec.count_token_starts b (Py.rstrip s) = Spec.count_token_starts b s.
Proof.
  revert b. induction s as [|c s IH]; intros b; [reflexivity|].
  rewrite rstrip_cons, (count_cons b c s).
  destruct (Py.rstrip s) as [|d r] eqn:Hr.
  - assert (Hall : Py.all_chars Py.isspace s = true)
      by (apply rstrip_empty_iff; exact Hr).
    rewrite !(count_all_space _ s Hall).
    destruct (Py.isspace c) eqn:Hc; [reflexivity|].
    rewrite count_cons, Hc. reflexivity.
  - rewrite count_cons, !IH. reflexivity.
Qed.

Lemma token_count_strip (s : string) :
  Spec.token_count (Py.strip s) = Spec.token_count s.
Proof.
  unfold Spec.token_count, Py.strip. rewrite count_rstrip. apply count_lstrip.
Qed.

Lemma token_count_zero_iff (s : string) :
  Spec.token_count s = 0%nat <-> Py.all_chars Py.isspace s = true.
Proof.
  unfold Spec.token_count. induction s as [|c s IH]; [split; reflexivity|].
  rewrite count_cons. cbn [Py.all_chars].
  destruct (Py.isspace c); simpl; [exact IH | split; discriminate].
Qed.

Lemma validate_input_blank (s : string) :
  ResearchAgent.validate_input s = negb (Py.all_chars Py.isspace s).
Proof.
  unfold ResearchAgent.validate_input.
  destruct (Py.all_chars Py.isspace s) eqn:Hall.
  - apply strip_empty_iff in Hall. rewrite Hall. reflexivity.
  - destruct (Py.strip s) eqn:Hs; [|reflexivity].
    apply strip_empty_iff in Hs. congruence.
Qed.

End StripFacts.

(** ** Further properties: the endpoint and the run as a whole *)

Lemma bind_ret_r {A : Type} (m : M A) (t : trace) : bind m ret t = m t.
Proof. unfold bind, ret. destruct (m t) as [t' [e | a]]; reflexivity. Qed.

Lemma post_create_authorized (w : World) (settings : Settings)
  (api_key : option string) (request : ContentRequest) (t : trace) :
  api_key = Some (secret_key settings) ->
  Api.post_create w settings api_key request t = Api.create_content w request t.
Proof.
  intros Hkey. unfold Api.post_create, Api.get_api_key, bind at 1.
  destruct (decide (api_key = Some (secret_key settings))) as [_ | Hne];
    [reflexivity | contradiction].
Qed.

Lemma api_create_content_nonempty (w : World) (request : ContentRequest)
  (t : trace) :
  req_topic request <> "" ->
  Api.create_content w request t
  = ContentCreationTask.create_content w (req_topic request)
      (req_content_type request) (req_target_audience request)
      (req_word_count request) (req_tone request) (req_keywords request)
      (req_research_depth request) t.
Proof.
  intros Hne. unfold Api.create_content, ContentCreationTask.validate_input.
  destruct (String.eqb_spec (req_topic request) "") as [Heq | _];
    [contradiction|].
  cbn [negb]. apply bind_ret_r.
Qed.

(** X1. With the right API key, a request whose topic is the empty string is
    answered with the 400 error by the path operation itself: the task is not
    entered, nothing is logged and no completion call is made. *)
Theorem endpoint_empty_topic_is_bad_request
  (w : World) (settings : Settings) (api_key : option string)
  (request : ContentRequest) (t : trace) :
  api_key = Some (secret_key settings) ->
  req_topic request = "" ->
  Api.post_create w settings api_key request t
  = (t, inl (HTTPException 400 "Invalid input data")).
Proof.
  intros Hkey Htopic. rewrite post_create_authorized by exact Hkey.
  unfold Api.create_content, ContentCreationTask.validate_input.
  rewrite Htopic. reflexivity.
Qed.

Lemma endpoint_empty_topic_is_bad_request_witness :
  Api.post_create Sample.world Sample.settings (Some "s3cret")
    {| req_topic := ""; req_content_type := "article";
       req_target_audience := "general"; req_word_count := 500;
       req_tone := "professional"; req_keywords := None;
       req_research_depth := "comprehensive" |} []
  = ([], inl (HTTPException 400 "Invalid input data")).
Proof.
  apply endpoint_empty_topic_is_bad_request; reflexivity.
Defined.

(** X2. With the right API key, a topic that is not empty but consists of
    whitespace only passes the 400 check of the path operation; the task is
    entered and the run ends in the research agent's [ValueError], not in an
    [HTTPException], still without any completion call. *)
Theorem endpoint_blank_topic_is_value_error
  (w : World) (settings : Settings) (api_key : option string)
  (request : ContentRequest) (t : trace) :
  api_key = Some (secret_key settings) ->
  req_topic request <> "" ->
  Py.strip (req_topic request) = "" ->
  exists t',
    Api.post_create w settings api_key request t
    = (t', inl (ValueError "Topic cannot be empty"))
    /\ completion_calls t' = completion_calls t
    /\ t' <> t.
Proof.
  intros Hkey Hne Hblank. rewrite post_create_authorized by exact Hkey.
  rewrite api_create_content_nonempty by exact Hne.
  assert (Hv : ResearchAgent.validate_input (req_topic request) = false).
  { unfold ResearchAgent.validate_input. rewrite Hblank. reflexivity. }
  rewrite create_content_invalid by exact Hv.
  eexists. split; [reflexivity|]. split.
  - rewrite completion_calls_app. simpl. apply List.app_nil_r.
  - intros H. apply (f_equal (@length event)) in H.
    rewrite length_app in H. simpl in H. lia.
Qed.

Lemma endpoint_blank_topic_is_value_error_witness :
  exists t',
    Api.post_create Sample.world Sample.settings (Some "s3cret")
      {| req_topic := "   "; req_content_type := "article";
         req_target_audience := "general"; req_word_count := 500;
         req_tone := "professional"; req_keywords := None;
         req_research_depth := "comprehensive" |} []
    = (t', inl (ValueError "Topic cannot be empty"))
    /\ completion_calls t' = completion_calls []
    /\ t' <> [].
Proof.
  apply endpoint_blank_topic_is_value_error;
    [reflexivity | discriminate | reflexivity].
Defined.

(** X3. With the right API key, a topic that is not blank and two completion
    calls that answer, the endpoint returns a record that echoes the seven
    request fields, carries the parsed research answer and the stripped draft,
    and has status [completed]; exactly the Research call and then the Writer
    call were made. *)
Theorem endpoint_success_record
  (w : World) (settings : Settings) (api_key : option string)
  (request : ContentRequest) (t : trace) (text out : string) :
  api_key = Some (secret_key settings) ->
  ResearchAgent.validate_input (req_topic request) = true ->
  let rp :=
    ResearchAgent.task_description (req_topic request)
      (req_research_depth request) (req_content_type request)
      (req_target_audience request) in
  let rd := ResearchAgent._parse_research_result text (req_topic request) in
  let wp :=
    draft_prompt (req_topic request) (req_content_type request)
      (req_target_audience request) (req_word_count request)
      (req_tone request) (req_keywords request) rd in
  complete w (completion_calls t) Researcher rp = inr text ->
  complete w (completion_calls t ++ [(Researcher, rp)]) Writer wp = inr out ->
  exists t' record,
    Api.post_create w settings api_key request t = (t', inr record)
    /\ completion_calls t' = completion_calls t ++ [(Researcher, rp); (Writer, wp)]
    /\ topic record = req_topic request
    /\ content_type record = req_content_type request
    /\ target_audience record = req_target_audience request
    /\ word_count record = req_word_count request
    /\ tone record = req_tone request
    /\ keywords record = req_keywords request
    /\ research_data record = rd
    /\ draft_content (content record) = Py.strip out
    /\ status record = "completed".
Proof.
  intros Hkey Hv rp rd wp Hr Hw.
  rewrite post_create_authorized by exact Hkey.
  rewrite api_create_content_nonempty
    by (intros Heq; rewrite Heq in Hv; discriminate Hv).
  rewrite create_content_run by exact Hv.
  fold rp. rewrite Hr. cbv zeta. fold rd. fold wp. rewrite Hw.
  eexists _, _. split; [reflexivity|]. split.
  - rewrite !completion_calls_app, completion_calls_log,
      !completion_calls_execute_events.
    simpl. rewrite List.app_nil_r, <- List.app_assoc. reflexivity.
  - repeat split; reflexivity.
Qed.

Lemma endpoint_success_record_witness :
  exists t' record,
    Api.post_create Sample.world Sample.settings (Some "s3cret")
      Sample.request [] = (t', inr record)
    /\ topic record = "electric vehicles"
    /\ draft_content (content record) = "one two  three"
    /\ status record = "completed".
Proof.
  destruct (endpoint_success_record Sample.world Sample.settings
              (Some "s3cret") Sample.request [] Sample.research_text
              "  one two  three " eq_refl eq_refl eq_refl eq_refl)
    as (t' & record & Hrun & _ & Htopic & _ & _ & _ & _ & _ & _ & Hd & Hs).
  exists t', record. repeat split; assumption.
Defined.

(** X4. When the Research call answers and the Writer call raises,
    [create_content] raises that same failure after both calls were made, and
    returns no record: the research result is dropped. *)
Theorem writer_failure_aborts_run
  (w : World) (topic content_type target_audience : string) (word_count : Z)
  (tone : string) (keywords : option (list string)) (research_depth : string)
  (t : trace) (text msg : string) :
  ResearchAgent.validate_input topic = true ->
  let rp :=
    ResearchAgent.task_description topic research_depth content_type
      target_audience in
  let wp :=
    draft_prompt topic content_type target_audience word_count tone keywords
      (ResearchAgent._parse_research_result text topic) in
  complete w (completion_calls t) Researcher rp = inr text ->
  complete w (completion_calls t ++ [(Researcher, rp)]) Writer wp = inl msg ->
  exists t',
    ContentCreationTask.create_content w topic content_type target_audience
      word_count tone keywords research_depth t
    = (t', inl (UpstreamFailure msg))
    /\ completion_calls t'
       = completion_calls t ++ [(Researcher, rp); (Writer, wp)].
Proof.
  intros Hv rp wp Hr Hw. rewrite create_content_run by exact Hv.
  fold rp. rewrite Hr. cbv zeta. fold wp. rewrite Hw.
  eexists. split; [reflexivity|].
  rewrite !completion_calls_app, completion_calls_log,
    !completion_calls_execute_events.
  simpl. rewrite List.app_nil_r, <- List.app_assoc. reflexivity.
Qed.

Lemma writer_failure_aborts_run_witness :
  exists t',
    ContentCreationTask.create_content Sample.writer_failing_world
      "electric vehicles" "article" "general" 500 "professional" None
      "comprehensive" []
    = (t', inl (UpstreamFailure "timeout"))
    /\ completion_calls t'
       = [] ++ [(Researcher,
                 ResearchAgent.task_description "electric vehicles"
                   "comprehensive" "article" "general");
                (Writer,
                 draft_prompt "electric vehicles" "article" "general" 500
                   "professional" None
                   (ResearchAgent._parse_research_result Sample.research_text
                      "electric vehicles"))].
Proof.
  apply (writer_failure_aborts_run Sample.writer_failing_world
           "electric vehicles" "article" "general" 500 "professional" None
           "comprehensive" [] Sample.research_text "timeout");
    reflexivity.
Defined.

(** X5. [create_content] returns a record exactly when the topic is not
    blank, the Research completion call answers, and the Writer completion
    call, made with the prompt built from that answer, answers too. In every
    other case it raises. *)
Theorem record_iff_both_calls_answer
  (w : World) (topic content_type target_audience : string) (word_count : Z)
  (tone : string) (keywords : option (list string)) (research_depth : string)
  (t : trace) :
  let rp :=
    ResearchAgent.task_description topic research_depth content_type
      target_audience in
  (exists t' record,
     ContentCreationTask.create_content w topic content_type target_audience
       word_count tone keywords research_depth t = (t', inr record))
  <-> (ResearchAgent.validate_input topic = true
       /\ exists text out,
            complete w (completion_calls t) Researcher rp = inr text
            /\ complete w (completion_calls t ++ [(Researcher, rp)]) Writer
                 (draft_prompt topic content_type target_audience word_count
                    tone keywords
                    (ResearchAgent._parse_research_result text topic))
               = inr out).
Proof.
  intros rp. split.
  - intros (t' & record & Hrun).
    destruct (ResearchAgent.validate_input topic) eqn:Hv.
    + split; [reflexivity|].
      rewrite create_content_run in Hrun by exact Hv. fold rp in Hrun.
      destruct (complete w (completion_calls t) Researcher rp)
        as [msg | text]; [discriminate Hrun|].
      cbv zeta in Hrun.
      destruct (complete w (completion_calls t ++ [(Researcher, rp)]) Writer
                  (draft_prompt topic content_type target_audience word_count
                     tone keywords
                     (ResearchAgent._parse_research_result text topic)))
        as [msg | out] eqn:Hw; [discriminate Hrun|].
      exists text, out. split; [reflexivity | exact Hw].
    + rewrite create_content_invalid in Hrun by exact Hv. discriminate Hrun.
  - intros (Hv & text & out & Hr & Hw).
    rewrite create_content_run by exact Hv. fold rp. rewrite Hr.
    cbv zeta. rewrite Hw. eexists _, _. reflexivity.
Qed.

(** X6. No retry and no extra call: whatever happens, a run of
    [create_content] keeps the earlier trace and adds at most two completion
    calls, the first by the Research agent and the second by the Writer. *)
Theorem create_content_makes_at_most_two_calls
  (w : World) (topic content_type target_audience : string) (word_count : Z)
  (tone : string) (keywords : option (list string)) (research_depth : string)
  (t : trace) :
  exists added calls,
    fst (ContentCreationTask.create_content w topic content_type
           target_audience word_count tone keywords research_depth t)
    = t ++ added
    /\ completion_calls added = calls
    /\ (calls = []
        \/ (exists rp, calls = [(Researcher, rp)])
        \/ (exists rp wp, calls = [(Researcher, rp); (Writer, wp)])).
Proof.
  destruct (ResearchAgent.validate_input topic) eqn:Hv.
  - rewrite create_content_run by exact Hv.
    destruct (complete w (completion_calls t) Researcher _) as [msg | text].
    + cbn [fst]. rewrite <- List.app_assoc.
      eexists _, _. split; [reflexivity|]. split; [reflexivity|].
      right. left. rewrite !completion_calls_app.
      rewrite completion_calls_execute_events. simpl. eexists. reflexivity.
    + cbv zeta.
      destruct (complete w _ Writer _) as [msg | out]; cbn [fst];
        rewrite <- !List.app_assoc;
        (eexists _, _; split; [reflexivity|]; split; [reflexivity|]);
        right; right; rewrite !completion_calls_app, completion_calls_log,
          !completion_calls_execute_events; simpl; eexists _, _; reflexivity.
  - rewrite create_content_invalid by exact Hv. cbn [fst].
    eexists _, _. split; [reflexivity|]. split; [reflexivity|].
    left. reflexivity.
Qed.

(** ** Further properties: the draft and its word count *)

(** X7. The draft of a draft result is stripped: it neither starts nor ends
    with a whitespace character, and stripping it again changes nothing. *)
Theorem draft_content_is_stripped
  (w : World) (topic content_type target_audience : string) (word_count : Z)
  (tone : string) (keywords : option (list string))
  (research_data : gmap string pyval) (t t' : trace) (draft : DraftResult) :
  ContentCreationTask._create_draft w topic content_type target_audience
    word_count tone keywords research_data t = (t', inr draft) ->
  (forall c, Py.first_char (draft_content draft) = Some c ->
             Py.isspace c = false)
  /\ (forall c, Py.last_char (draft_content draft) = Some c ->
                Py.isspace c = false)
  /\ Py.strip (draft_content draft) = draft_content draft.
Proof.
  intros Hrun.
  destruct (WriterAgent.validate_input topic) eqn:Hv.
  - rewrite create_draft_run in Hrun by exact Hv.
    destruct (complete w (completion_calls t) Writer _) as [msg | out];
      [discriminate Hrun|].
    injection Hrun as _ <-. cbn [draft_content].
    split; [apply first_char_strip|].
    split; [apply last_char_strip | apply strip_idempotent].
  - unfold ContentCreationTask._create_draft,
      WriterAgent.create_content_draft, bind, emit, raise in Hrun.
    rewrite Hv in Hrun. discriminate Hrun.
Qed.

Lemma draft_content_is_stripped_witness :
  exists t' draft,
    ContentCreationTask._create_draft Sample.world "electric vehicles"
      "article" "general" 500 "professional" None Sample.empty_research []
    = (t', inr draft)
    /\ Py.strip (draft_content draft) = draft_content draft.
Proof.
  eexists _, _. split.
  - exact (create_draft_run Sample.world "electric vehicles" "article"
             "general" 500 "professional" None Sample.empty_research []
             eq_refl).
  - exact (proj2 (proj2 (draft_content_is_stripped Sample.world
                           "electric vehicles" "article" "general" 500
                           "professional" None Sample.empty_research [] _ _
                           (create_draft_run Sample.world "electric vehicles"
                              "article" "general" 500 "professional" None
                              Sample.empty_research [] eq_refl)))).
Defined.

(** X8. An empty or all-whitespace answer of the Writer is not an error:
    whenever the Writer call answers, a draft is returned; it reports zero
    words exactly when its draft is the empty string, and its draft is the
    empty string exactly when the answer is empty or all whitespace. *)
Theorem zero_words_iff_empty_draft
  (w : World) (topic content_type target_audience : string) (word_count : Z)
  (tone : string) (keywords : option (list string))
  (research_data : gmap string pyval) (t : trace) (out : string) :
  WriterAgent.validate_input topic = true ->
  complete w (completion_calls t) Writer
    (draft_prompt topic content_type target_audience word_count tone keywords
       research_data) = inr out ->
  exists t' draft,
    ContentCreationTask._create_draft w topic content_type target_audience
      word_count tone keywords research_data t = (t', inr draft)
    /\ (word_count_actual draft = 0%Z <-> draft_content draft = "")
    /\ (draft_content draft = "" <-> Py.all_chars Py.isspace out = true).
Proof.
  intros Hv Hout. rewrite create_draft_run by exact Hv. rewrite Hout.
  eexists _, _. split; [reflexivity|].
  cbn [draft_content word_count_actual]. split.
  - rewrite split_ws_length.
    rewrite <- (strip_idempotent out) at 2.
    rewrite strip_empty_iff, <- token_count_zero_iff. lia.
  - apply strip_empty_iff.
Qed.

Lemma zero_words_iff_empty_draft_witness :
  exists t' draft,
    ContentCreationTask._create_draft Sample.blank_world "electric vehicles"
      "article" "general" 500 "professional" None Sample.empty_research []
    = (t', inr draft)
    /\ draft_content draft = ""
    /\ word_count_actual draft = 0%Z.
Proof.
  destruct (zero_words_iff_empty_draft Sample.blank_world "electric vehicles"
              "article" "general" 500 "professional" None
              Sample.empty_research [] "  " eq_refl eq_refl)
    as (t' & draft & Hrun & Hzero & Hblank).
  exists t', draft. split; [exact Hrun|].
  assert (Hd : draft_content draft = "") by (apply Hblank; reflexivity).
  split; [exact Hd | apply Hzero; exact Hd].
Defined.

(** X9. Stripping the Writer's answer does not change the count: the reported
    [word_count_actual] is the number of whitespace-separated tokens of the
    raw answer of the completion call. *)
Theorem word_count_of_raw_answer
  (w : World) (topic content_type target_audience : string) (word_count : Z)
  (tone : string) (keywords : option (list string))
  (research_data : gmap string pyval) (t : trace) (out : string) :
  WriterAgent.validate_input topic = true ->
  complete w (completion_calls t) Writer
    (draft_prompt topic content_type target_audience word_count tone keywords
       research_data) = inr out ->
  exists t' draft,
    ContentCreationTask._create_draft w topic content_type target_audience
      word_count tone keywords research_data t = (t', inr draft)
    /\ word_count_actual draft = Z.of_nat (Spec.token_count out).
Proof.
  intros Hv Hout. rewrite create_draft_run by exact Hv. rewrite Hout.
  eexists _, _. split; [reflexivity|]. cbn [word_count_actual].
  rewrite split_ws_length, token_count_strip. reflexivity.
Qed.

Lemma word_count_of_raw_answer_witness :
  exists t' draft,
    ContentCreationTask._create_draft Sample.world "electric vehicles"
      "article" "general" 500 "professional" None Sample.empty_research []
    = (t', inr draft)
    /\ word_count_actual draft
       = Z.of_nat (Spec.token_count "  one two  three ").
Proof.
  apply (word_count_of_raw_answer Sample.world "electric vehicles" "article"
           "general" 500 "professional" None Sample.empty_research []
           "  one two  three ");
    reflexivity.
Defined.

(** X10. Both agents reject a topic exactly when every one of its characters
    is whitespace (the empty topic included), and they agree on every topic;
    whatever topic the agents accept also passes the task's own check, which
    only refuses the empty string. *)
Theorem topic_validation_agrees (request : ContentRequest) :
  (ResearchAgent.validate_input (req_topic request) = false
   <-> Py.all_chars Py.isspace (req_topic request) = true)
  /\ WriterAgent.validate_input (req_topic request)
     = ResearchAgent.validate_input (req_topic request)
  /\ (ResearchAgent.validate_input (req_topic request) = true ->
      ContentCreationTask.validate_input request = true).
Proof.
  split.
  - rewrite validate_input_blank.
    destruct (Py.all_chars Py.isspace (req_topic request)); simpl;
      split; congruence.
  - split; [reflexivity|].
    unfold ContentCreationTask.validate_input.
    destruct (req_topic request); [discriminate | reflexivity].
Qed.

(** ** Further properties: the extraction buckets *)

Section BucketFacts.

Lemma isspace_lower_char (c : ascii) :
  Py.isspace (Py.lower_char c) = Py.isspace c.
Proof. destruct c as [[] [] [] [] [] [] [] []]; reflexivity. Qed.

Lemma lower_lstrip (s : string) : Py.lower (Py.lstrip s) = Py.lstrip (Py.lower s).
Proof.
  induction s as [|c s IH]; [reflexivity|]. simpl.
  rewrite isspace_lower_char. destruct (Py.isspace c); [exact IH | reflexivity].
Qed.

Lemma lower_rstrip (s : string) : Py.lower (Py.rstrip s) = Py.rstrip (Py.lower s).
Proof.
  induction s as [|c s IH]; [reflexivity|].
  cbn [Py.lower]. rewrite !rstrip_cons, <- IH, isspace_lower_char.
  destruct (Py.rstrip s); [destruct (Py.isspace c)|]; reflexivity.
Qed.

Lemma lower_strip (s : string) : Py.lower (Py.strip s) = Py.strip (Py.lower s).
Proof. unfold Py.strip. rewrite lower_rstrip, lower_lstrip. reflexivity. Qed.

Lemma contains_cons (needle : string) (c : ascii) (hay : string) :
  Py.contains needle (String c hay)
  = String.prefix needle (String c hay) || Py.contains needle hay.
Proof. reflexivity. Qed.

Lemma contains_lstrip (keyword s : string) (k : ascii) :
  Py.first_char keyword = Some k -> Py.isspace k = false ->
  Py.contains keyword s = true -> Py.contains keyword (Py.lstrip s) = true.
Proof.
  intros Hfirst Hk. induction s as [|c s IH]; [intros H; exact H|].
  simpl Py.lstrip. destruct (Py.isspace c) eqn:Hc; [|intros H; exact H].
  rewrite contains_cons. intros H. apply orb_true_iff in H.
  destruct H as [H | H]; [|apply IH; exact H].
  destruct keyword as [|a keyword]; [discriminate Hfirst|].
  injection Hfirst as ->. simpl in H.
  destruct (ascii_dec k c) as [-> | _]; [congruence | discriminate H].
Qed.

Lemma rstrip_app_keep (a b : string) :
  Py.rstrip b <> "" -> Py.rstrip (a +:+ b) = a +:+ Py.rstrip b.
Proof.
  intros Hb. induction a as [|c a IH]; [reflexivity|].
  rewrite sapp_cons, rstrip_cons, IH, sapp_cons.
  destruct (a +:+ Py.rstrip b) as [|d r] eqn:Hab; [|reflexivity].
  destruct a; [|discriminate Hab]. rewrite sapp_nil_l in Hab. contradiction.
Qed.

Lemma rstrip_keyword (keyword rest : string) (k : ascii) :
  Py.last_char keyword = Some k -> Py.isspace k = false ->
  Py.rstrip (keyword +:+ rest) = keyword +:+ Py.rstrip rest.
Proof.
  intros Hlast Hk. induction keyword as [|a keyword IH]; [discriminate Hlast|].
  rewrite sapp_cons, rstrip_cons, sapp_cons. destruct keyword as [|b keyword].
  - injection Hlast as ->. rewrite !sapp_nil_l, Hk.
    destruct (Py.rstrip rest); reflexivity.
  - rewrite IH by exact Hlast. reflexivity.
Qed.

Lemma contains_rstrip (keyword s : string) (k : ascii) :
  Py.last_char keyword = Some k -> Py.isspace k = false ->
  Py.contains keyword s = true -> Py.contains keyword (Py.rstrip s) = true.
Proof.
  intros Hlast Hk H. apply contains_spec in H.
  destruct H as (before & after & ->). apply contains_spec.
  exists before, (Py.rstrip after).
  assert (Hkw : Py.rstrip (keyword +:+ after) = keyword +:+ Py.rstrip after)
    by (apply (rstrip_keyword keyword after k); assumption).
  rewrite rstrip_app_keep; rewrite Hkw; [reflexivity|].
  destruct keyword; [discriminate Hlast | discriminate].
Qed.

Lemma contains_strip (keyword s : string) :
  Spec.edges_not_space keyword = true ->
  Py.contains keyword s = true -> Py.contains keyword (Py.strip s) = true.
Proof.
  unfold Spec.edges_not_space. intros Hedge H.
  destruct (Py.first_char keyword) as [a|] eqn:Ha; [|discriminate Hedge].
  destruct (Py.last_char keyword) as [b|] eqn:Hb; [|discriminate Hedge].
  apply andb_true_iff in Hedge. destruct Hedge as [Hna Hnb].
  apply negb_true_iff in Hna. apply negb_true_iff in Hnb.
  unfold Py.strip. apply (contains_rstrip keyword _ b Hb Hnb).
  apply (contains_lstrip keyword _ a Ha Hna). exact H.
Qed.

Lemma any_keyword_strip (keywords : list string) (line : string) :
  forallb Spec.edges_not_space keywords = true ->
  ResearchAgent.any_keyword keywords line = true ->
  ResearchAgent.any_keyword keywords (Py.strip line) = true.
Proof.
  unfold ResearchAgent.any_keyword. intros Hedge H.
  apply existsb_exists in H. destruct H as (keyword & Hin & H).
  apply existsb_exists. exists keyword. split; [exact Hin|].
  rewrite lower_strip. apply contains_strip; [|exact H].
  rewrite forallb_forall in Hedge. apply Hedge. exact Hin.
Qed.

(** The loop of the extraction helpers gives a bucket that is [bucket_ok],
    whenever the keywords are in lower case and have no whitespace at their
    two ends. *)
Lemma extract_loop_bucket_ok (keywords : list string) (text : string) :
  forallb (fun k => String.eqb (Py.lower k) k) keywords = true ->
  forallb Spec.edges_not_space keywords = true ->
  Spec.bucket_ok keywords text
    (ResearchAgent.extract_loop keywords (Py.split Py.LF text)).
Proof.
  intros Hlow Hedge. rewrite extract_loop_filter. split.
  - apply Forall_forall. intros entry Hin.
    apply list_elem_of_In, in_map_iff in Hin.
    destruct Hin as (line & <- & Hline).
    apply filter_In in Hline. destruct Hline as [_ Hmatch].
    split; [apply strip_idempotent|].
    apply any_keyword_spec.
    + apply Forall_forall. intros k Hk. apply String.eqb_eq.
      rewrite forallb_forall in Hlow. apply Hlow.
      apply list_elem_of_In. exact Hk.
    + apply any_keyword_strip; assumption.
  - rewrite length_map. apply filter_length_le.
Qed.

End BucketFacts.

(** X11. In every research result, each entry of [key_facts], [sources],
    [insights] and [recommendations] is free of leading and trailing
    whitespace and still contains one of the bucket's keywords as a
    case-insensitive substring, and no bucket has more entries than the text
    has lines. *)
Theorem research_buckets_are_ok (text : string) :
  Spec.bucket_ok ResearchAgent.key_facts_keywords text
    (ResearchAgent._extract_key_facts text)
  /\ Spec.bucket_ok ResearchAgent.sources_keywords text
       (ResearchAgent._extract_sources text)
  /\ Spec.bucket_ok ResearchAgent.insights_keywords text
       (ResearchAgent._extract_insights text)
  /\ Spec.bucket_ok ResearchAgent.recommendations_keywords text
       (ResearchAgent._extract_recommendations text).
Proof.
  split; [apply extract_loop_bucket_ok; reflexivity|].
  split; [apply extract_loop_bucket_ok; reflexivity|].
  split; apply extract_loop_bucket_ok; reflexivity.
Qed.

Lemma strip_loop_go (test : string -> bool) (lines found : list string) :
  fold_left
    (fun found line => if test line then found ++ [Py.strip line] else found)
    lines found
  = found ++ map Py.strip (List.filter test lines).
Proof.
  revert found. induction lines as [|line lines IH]; intros found; simpl.
  - rewrite List.app_nil_r. reflexivity.
  - rewrite IH. destruct (test line); simpl;
      [rewrite <- List.app_assoc|]; reflexivity.
Qed.

Lemma has_quote_mark_strip (line : string) :
  ResearchAgent.has_quote_mark line = true ->
  ResearchAgent.has_quote_mark (Py.strip line) = true.
Proof.
  unfold ResearchAgent.has_quote_mark. intros H.
  apply orb_true_iff in H. apply orb_true_iff.
  destruct H as [H | H]; [left | right];
    (apply contains_strip; [reflexivity | exact H]).
Qed.

(** X12. The same holds for the keyword buckets of the fact-check, statistics,
    quotes and trends results: every entry is stripped, contains one of the
    bucket's keywords as a case-insensitive substring, and no bucket has more
    entries than the text has lines. The [quotes_list] entries are stripped
    and each contains a double or a single quote character. The three
    fact-check buckets are those of every fact-check result that exists. *)
Theorem other_buckets_are_ok (text : string) :
  let st := ResearchAgent._parse_statistics_result text in
  let qu := ResearchAgent._parse_quotes_result text in
  let tr := ResearchAgent._parse_trends_result text in
  Spec.bucket_ok ResearchAgent.verified_facts_keywords text
    (ResearchAgent._extract_verified_facts text)
  /\ Spec.bucket_ok ResearchAgent.corrections_keywords text
       (ResearchAgent._extract_corrections text)
  /\ Spec.bucket_ok ResearchAgent.verified_sources_keywords text
       (ResearchAgent._extract_verified_sources text)
  /\ match ResearchAgent._parse_fact_check_result text with
     | inr fc =>
         ResearchAgent.verified_facts fc
         = ResearchAgent._extract_verified_facts text
         /\ ResearchAgent.corrections_needed fc
            = ResearchAgent._extract_corrections text
         /\ ResearchAgent.sources_verified fc
            = ResearchAgent._extract_verified_sources text
     | inl _ => True
     end
  /\ Spec.bucket_ok ResearchAgent.key_numbers_keywords text
       (ResearchAgent.key_numbers st)
  /\ Spec.bucket_ok ResearchAgent.trends_keywords text
       (ResearchAgent.trends st)
  /\ Spec.bucket_ok ResearchAgent.data_sources_keywords text
       (ResearchAgent.data_sources st)
  /\ Spec.bucket_ok ResearchAgent.viz_suggestions_keywords text
       (ResearchAgent.visualization_suggestions st)
  /\ Spec.bucket_ok ResearchAgent.credentials_keywords text
       (ResearchAgent.expert_credentials qu)
  /\ Spec.bucket_ok ResearchAgent.quote_sources_keywords text
       (ResearchAgent.quote_sources qu)
  /\ Spec.bucket_ok ResearchAgent.current_trends_keywords text
       (ResearchAgent.current_trends tr)
  /\ Spec.bucket_ok ResearchAgent.emerging_trends_keywords text
       (ResearchAgent.emerging_trends tr)
  /\ Spec.bucket_ok ResearchAgent.future_predictions_keywords text
       (ResearchAgent.future_predictions tr)
  /\ Spec.bucket_ok ResearchAgent.trend_implications_keywords text
       (ResearchAgent.trend_implications tr)
  /\ Forall
       (fun entry =>
          Py.strip entry = entry
          /\ ResearchAgent.has_quote_mark entry = true)
       (ResearchAgent.quotes_list qu)
  /\ length (ResearchAgent.quotes_list qu) <= length (Py.split Py.LF text).
Proof.
  intros st qu tr.
  do 3 (split; [apply extract_loop_bucket_ok; reflexivity|]).
  split.
  { unfold ResearchAgent._parse_fact_check_result.
    destruct (ResearchAgent._extract_accuracy_score text);
      [exact I | repeat split; reflexivity]. }
  repeat (split; [apply extract_loop_bucket_ok; reflexivity|]).
  unfold qu. cbn [ResearchAgent._parse_quotes_result ResearchAgent.quotes_list].
  unfold ResearchAgent._extract_quotes. rewrite strip_loop_go.
  cbn [app]. split.
  - apply Forall_forall. intros entry Hin.
    apply list_elem_of_In, in_map_iff in Hin.
    destruct Hin as (line & <- & Hline).
    apply filter_In in Hline. destruct Hline as [_ Hmark].
    split; [apply strip_idempotent | apply has_quote_mark_strip; exact Hmark].
  - rewrite length_map. apply filter_length_le.
Qed.

(** ** Further properties: what the prompts carry *)

Section PromptFacts.

Lemma contains_refl (s : string) : Py.contains s s = true.
Proof.
  apply contains_spec. exists "", "". rewrite sapp_nil_l, sapp_nil_r.
  reflexivity.
Qed.

Lemma contains_app_l (needle a b : string) :
  Py.contains needle a = true -> Py.contains needle (a +:+ b) = true.
Proof.
  intros H. apply contains_spec in H. destruct H as (before & after & ->).
  apply contains_spec. exists before, (after +:+ b).
  rewrite !sapp_assoc. reflexivity.
Qed.

Lemma contains_app_r (needle a b : string) :
  Py.contains needle b = true -> Py.contains needle (a +:+ b) = true.
Proof.
  intros H. apply contains_spec in H. destruct H as (before & after & ->).
  apply contains_spec. exists (a +:+ before), after.
  rewrite !sapp_assoc. reflexivity.
Qed.

Lemma contains_join (sep item : string) (items : list string) :
  In item items -> Py.contains item (Py.join sep items) = true.
Proof.
  induction items as [|x items IH]; [intros []|].
  intros Hin. destruct items as [|y items].
  - destruct Hin as [-> | []]. apply contains_refl.
  - rewrite join_cons by discriminate. destruct Hin as [-> | Hin].
    + apply contains_app_l, contains_refl.
    + apply contains_app_r, contains_app_r, IH. exact Hin.
Qed.

End PromptFacts.

(** Search a concatenation for the part that is the needle itself. *)
Ltac find_part :=
  first [ apply contains_refl
        | apply contains_app_l; find_part
        | apply contains_app_r; find_part ].

(** X13. The Writer's prompt names what was asked for: the topic, the content
    type, the audience, the tone, the requested word count in decimal, and,
    when a keyword list is given, every one of its keywords. *)
Theorem writer_prompt_carries_parameters
  (topic content_type target_audience : string) (word_count : Z)
  (tone : string) (kws : list string)
  (additional_requirements : option string) :
  let prompt :=
    WriterAgent.task_description topic content_type target_audience word_count
      tone (Some kws) additional_requirements in
  Py.contains topic prompt = true
  /\ Py.contains content_type prompt = true
  /\ Py.contains target_audience prompt = true
  /\ Py.contains tone prompt = true
  /\ Py.contains (Py.str_of_int word_count) prompt = true
  /\ Forall (fun keyword => Py.contains keyword prompt = true) kws.
Proof.
  intros prompt.
  assert (Hspec : forall item,
            In item [topic; content_type; target_audience; tone;
                     Py.str_of_int word_count] ->
            Py.contains item prompt = true).
  { intros item Hin. unfold prompt, WriterAgent.task_description.
    apply contains_app_l. unfold WriterAgent.specifications.
    cbn [Py.join String.concat].
    destruct Hin as [<- | [<- | [<- | [<- | [<- | []]]]]]; find_part. }
  split; [apply Hspec; simpl; tauto|].
  split; [apply Hspec; simpl; tauto|].
  split; [apply Hspec; simpl; tauto|].
  split; [apply Hspec; simpl; tauto|].
  split; [apply Hspec; simpl; tauto|].
  apply Forall_forall. intros keyword Hin. apply list_elem_of_In in Hin.
  unfold prompt, WriterAgent.task_description.
  apply contains_app_r, contains_app_l.
  destruct kws as [|k ks]; [destruct Hin|].
  unfold WriterAgent.keywords_line.
  apply contains_app_r, contains_app_r, contains_join. exact Hin.
Qed.

(** ** Further properties: the capabilities that do not validate *)

Section CapabilityFacts.

Variable w : World.

(** One guarded call of the completion client followed by a pure parse. *)
Lemma parsed_task_run {A : Type} (self : BaseAgent.t) (prompt : string)
  (parse : string -> A) (t : trace) :
  bind (BaseAgent.execute_task w self prompt) (fun result => ret (parse result))
    t
  = (t ++ execute_events self prompt
            (complete w (completion_calls t) (BaseAgent.ident self) prompt),
     match complete w (completion_calls t) (BaseAgent.ident self) prompt with
     | inl msg => inl (UpstreamFailure msg)
     | inr out => inr (parse out)
     end).
Proof.
  unfold bind, ret. rewrite execute_task_run.
  destruct (complete w (completion_calls t) (BaseAgent.ident self) prompt);
    reflexivity.
Qed.

Lemma completion_calls_after_task (self : BaseAgent.t) (prompt : string)
  (r : string + string) (t : trace) :
  completion_calls (t ++ execute_events self prompt r)
  = completion_calls t ++ [(BaseAgent.ident self, prompt)].
Proof.
  rewrite completion_calls_app, completion_calls_execute_events. reflexivity.
Qed.

End CapabilityFacts.

(** A guarded call of the completion client followed by a parse that can
    raise. *)
Lemma checked_task_run {A : Type} (w : World) (self : BaseAgent.t)
  (prompt : string) (parse : string -> exn + A) (t : trace) :
  bind (BaseAgent.execute_task w self prompt)
    (fun result => lift_result (parse result)) t
  = (t ++ execute_events self prompt
            (complete w (completion_calls t) (BaseAgent.ident self) prompt),
     match complete w (completion_calls t) (BaseAgent.ident self) prompt with
     | inl msg => inl (UpstreamFailure msg)
     | inr out => parse out
     end).
Proof.
  unfold bind, lift_result. rewrite execute_task_run.
  destruct (complete w (completion_calls t) (BaseAgent.ident self) prompt);
    reflexivity.
Qed.

(** X14. [fact_check_content], [gather_statistics], [find_expert_quotes] and
    [analyze_trends] do not validate their input: for any arguments, the
    empty string included, each makes exactly one completion call. The last
    three raise only what that call raises and otherwise return the parse of
    the answer, which is kept as it is in the first field.
    [fact_check_content] does the same, except that parsing the answer raises
    the [ValueError] of [int] when the number read after the accuracy label
    has more than 4300 digits. *)
Theorem other_capabilities_always_call
  (w : World) (content topic quote_type period trend_type : string)
  (time_period geographic_scope : option string) (t : trace) :
  let answer prompt := complete w (completion_calls t) Researcher prompt in
  let calls prompt := completion_calls t ++ [(Researcher, prompt)] in
  (completion_calls
     (fst (ResearchAgent.fact_check_content w content topic t))
   = calls (ResearchAgent.fact_check_description content topic)
   /\ snd (ResearchAgent.fact_check_content w content topic t)
      = match answer (ResearchAgent.fact_check_description content topic) with
        | inl msg => inl (UpstreamFailure msg)
        | inr out => ResearchAgent._parse_fact_check_result out
        end)
  /\ (completion_calls
        (fst (ResearchAgent.gather_statistics w topic time_period
                geographic_scope t))
      = calls (ResearchAgent.statistics_description topic time_period
                 geographic_scope)
      /\ snd (ResearchAgent.gather_statistics w topic time_period
                geographic_scope t)
         = match answer (ResearchAgent.statistics_description topic
                           time_period geographic_scope) with
           | inl msg => inl (UpstreamFailure msg)
           | inr out => inr (ResearchAgent._parse_statistics_result out)
           end)
  /\ (completion_calls
        (fst (ResearchAgent.find_expert_quotes w topic quote_type t))
      = calls (ResearchAgent.quotes_description topic quote_type)
      /\ snd (ResearchAgent.find_expert_quotes w topic quote_type t)
         = match answer (ResearchAgent.quotes_description topic quote_type)
           with
           | inl msg => inl (UpstreamFailure msg)
           | inr out => inr (ResearchAgent._parse_quotes_result out)
           end)
  /\ (completion_calls
        (fst (ResearchAgent.analyze_trends w topic period trend_type t))
      = calls (ResearchAgent.trends_description topic period trend_type)
      /\ snd (ResearchAgent.analyze_trends w topic period trend_type t)
         = match answer (ResearchAgent.trends_description topic period
                           trend_type) with
           | inl msg => inl (UpstreamFailure msg)
           | inr out => inr (ResearchAgent._parse_trends_result out)
           end)
  /\ (forall out,
        match ResearchAgent._parse_fact_check_result out with
        | inr fc =>
            ResearchAgent.fact_check_results fc = out
            /\ forall group,
                 ResearchAgent.search_accuracy (Py.lower out) = Some group ->
                 (String.length group <= ResearchAgent.max_str_digits)%nat
        | inl e =>
            exists group,
              ResearchAgent.search_accuracy (Py.lower out) = Some group
              /\ (ResearchAgent.max_str_digits < String.length group)%nat
              /\ ResearchAgent.int_of_group group = inl e
        end
        /\ ResearchAgent.statistics_data
             (ResearchAgent._parse_statistics_result out) = out
        /\ ResearchAgent.expert_quotes
             (ResearchAgent._parse_quotes_result out) = out
        /\ ResearchAgent.trend_analysis
             (ResearchAgent._parse_trends_result out) = out).
Proof.
  intros answer calls.
  unfold ResearchAgent.fact_check_content, ResearchAgent.gather_statistics,
    ResearchAgent.find_expert_quotes, ResearchAgent.analyze_trends.
  rewrite !parsed_task_run, checked_task_run. cbn [fst snd].
  rewrite !completion_calls_after_task.
  do 4 (split; [split; reflexivity|]).
  intros out. split; [|repeat split; reflexivity].
  unfold ResearchAgent._parse_fact_check_result,
    ResearchAgent._extract_accuracy_score.
  destruct (ResearchAgent.search_accuracy (Py.lower out)) as [group|];
    [|split; [reflexivity | discriminate]].
  destruct (ResearchAgent.int_of_group group) as [e | n] eqn:Hint.
  - exists group. split; [reflexivity|]. split; [|exact Hint].
    unfold ResearchAgent.int_of_group in Hint.
    destruct (Nat.leb_spec (String.length group) ResearchAgent.max_str_digits)
      as [Hle | Hgt]; [discriminate Hint | exact Hgt].
  - split; [reflexivity|]. intros g Hg. injection Hg as <-.
    unfold ResearchAgent.int_of_group in Hint.
    destruct (Nat.leb_spec (String.length group) ResearchAgent.max_str_digits)
      as [Hle | Hgt]; [exact Hle | discriminate Hint].
Qed.

(** ** Further properties: the accuracy score *)

Section ScoreFacts.

Lemma strip_prefix_app (p rest : string) :
  Py.strip_prefix p (p +:+ rest) = Some rest.
Proof.
  induction p as [|a p IH]; [reflexivity|].
  rewrite sapp_cons. simpl. rewrite Ascii.eqb_refl. exact IH.
Qed.

Lemma strip_prefix_spec (p s rest : string) :
  Py.strip_prefix p s = Some rest -> s = p +:+ rest.
Proof.
  revert s. induction p as [|a p IH]; intros s; simpl.
  - intros H. injection H as ->. reflexivity.
  - destruct s as [|b s]; [discriminate|].
    destruct (Ascii.eqb_spec a b) as [-> | _]; [|discriminate].
    intros H. rewrite sapp_cons. f_equal. apply IH. exact H.
Qed.

Lemma length_sapp (a b : string) :
  String.length (a +:+ b) = (String.length a + String.length b)%nat.
Proof.
  induction a as [|c a IH]; [reflexivity|].
  rewrite sapp_cons. simpl. rewrite IH. reflexivity.
Qed.

(** A prefix no longer than [a] that starts [a +:+ b] starts [a]. *)
Lemma strip_prefix_short (p a b rest : string) :
  Py.strip_prefix p (a +:+ b) = Some rest ->
  (String.length p <= String.length a)%nat ->
  exists rest', a = p +:+ rest'.
Proof.
  revert a. induction p as [|x p IH]; intros a H Hlen.
  - exists a. reflexivity.
  - destruct a as [|y a]; [simpl in Hlen; lia|].
    rewrite sapp_cons in H. simpl in H.
    destruct (Ascii.eqb_spec x y) as [-> | _]; [|discriminate H].
    destruct (IH a H) as [rest' ->]; [simpl in Hlen; lia|].
    exists rest'. reflexivity.
Qed.

Lemma search_cons (c : ascii) (s : string) :
  ResearchAgent.search_accuracy (String c s)
  = match ResearchAgent.match_accuracy_here (String c s) with
    | Some group => Some group
    | None => ResearchAgent.search_accuracy s
    end.
Proof. reflexivity. Qed.

Lemma match_here_prefix (s group : string) :
  ResearchAgent.match_accuracy_here s = Some group ->
  exists rest, s = "accuracy" +:+ rest.
Proof.
  unfold ResearchAgent.match_accuracy_here.
  destruct (Py.strip_prefix "accuracy" s) as [rest|] eqn:Hp; [|discriminate].
  intros _. exists rest. apply strip_prefix_spec. exact Hp.
Qed.

Lemma search_contains (s group : string) :
  ResearchAgent.search_accuracy s = Some group ->
  Py.contains "accuracy" s = true.
Proof.
  induction s as [|c s IH]; [discriminate|].
  rewrite search_cons.
  destruct (ResearchAgent.match_accuracy_here (String c s)) as [g|] eqn:Hm.
  - intros _. apply match_here_prefix in Hm. destruct Hm as [rest Hm].
    apply contains_spec. exists "", rest. exact Hm.
  - intros H. rewrite contains_cons. apply orb_true_iff. right.
    apply IH. exact H.
Qed.

Lemma int_of_digits_go_nonneg (acc : Z) (s : string) :
  (0 <= acc)%Z -> (0 <= Py.int_of_digits_go acc s)%Z.
Proof.
  revert acc. induction s as [|c s IH]; intros acc Hacc; [exact Hacc|].
  simpl. apply IH. lia.
Qed.

(** No match starts inside [before] when the label is not found there. *)
Lemma search_skips_prefix (before rest group : string) :
  Py.contains "accuracy" (before +:+ "accurac") = false ->
  ResearchAgent.match_accuracy_here ("accuracy" +:+ rest) = Some group ->
  ResearchAgent.search_accuracy (before +:+ "accuracy" +:+ rest) = Some group.
Proof.
  intros Hnone Hhere. induction before as [|c before IH].
  - rewrite sapp_nil_l.
    change ("accuracy" +:+ rest) with (String "a" ("ccuracy" +:+ rest)).
    rewrite search_cons.
    change (String "a" ("ccuracy" +:+ rest)) with ("accuracy" +:+ rest).
    rewrite Hhere. reflexivity.
  - rewrite sapp_cons in Hnone. rewrite contains_cons in Hnone.
    apply orb_false_iff in Hnone. destruct Hnone as [Hpre Hnone].
    rewrite sapp_cons, search_cons.
    destruct (ResearchAgent.match_accuracy_here
                (String c (before +:+ "accuracy" +:+ rest))) as [g|] eqn:Hm;
      [|apply IH; exact Hnone].
    exfalso. unfold ResearchAgent.match_accuracy_here in Hm.
    destruct (Py.strip_prefix "accuracy"
                (String c (before +:+ "accuracy" +:+ rest))) as [r|] eqn:Hp;
      [|discriminate Hm].
    change (String c (before +:+ "accuracy" +:+ rest))
      with (String c before +:+ ("accurac" +:+ ("y" +:+ rest))) in Hp.
    rewrite <- sapp_assoc in Hp.
    apply strip_prefix_short in Hp; [|rewrite length_sapp; simpl; lia].
    destruct Hp as [rest' Hp].
    assert (Ht : String.prefix "accuracy" (String c (before +:+ "accurac"))
                 = true)
      by (apply prefix_spec; exists rest'; exact Hp).
    congruence.
Qed.

Lemma is_label_sep_lower_char (c : ascii) :
  ResearchAgent.is_label_sep (Py.lower_char c) = ResearchAgent.is_label_sep c.
Proof. destruct c as [[] [] [] [] [] [] [] []]; reflexivity. Qed.

Lemma is_digit_lower_char (c : ascii) :
  Py.is_digit (Py.lower_char c) = Py.is_digit c.
Proof. destruct c as [[] [] [] [] [] [] [] []]; reflexivity. Qed.

Lemma digit_lower_char (c : ascii) :
  Py.is_digit c = true -> Py.lower_char c = c.
Proof.
  destruct c as [[] [] [] [] [] [] [] []]; intros H;
    solve [reflexivity | discriminate H].
Qed.

Lemma digit_not_label_sep (c : ascii) :
  Py.is_digit c = true -> ResearchAgent.is_label_sep c = false.
Proof.
  destruct c as [[] [] [] [] [] [] [] []]; intros H;
    solve [reflexivity | discriminate H].
Qed.

Lemma all_label_sep_lower (s : string) :
  Py.all_chars ResearchAgent.is_label_sep (Py.lower s)
  = Py.all_chars ResearchAgent.is_label_sep s.
Proof.
  induction s as [|c s IH]; [reflexivity|]. simpl.
  rewrite is_label_sep_lower_char, IH. reflexivity.
Qed.

Lemma lower_digits (s : string) :
  Py.all_chars Py.is_digit s = true -> Py.lower s = s.
Proof.
  induction s as [|c s IH]; [reflexivity|]. simpl. intros H.
  apply andb_true_iff in H. destruct H as [Hc Hs].
  rewrite (digit_lower_char c Hc), (IH Hs). reflexivity.
Qed.

Lemma first_char_lower (s : string) :
  Py.first_char (Py.lower s) = option_map Py.lower_char (Py.first_char s).
Proof. destruct s; reflexivity. Qed.

Lemma skip_label_sep_app (sep rest : string) :
  Py.all_chars ResearchAgent.is_label_sep sep = true ->
  (forall c, Py.first_char rest = Some c ->
             ResearchAgent.is_label_sep c = false) ->
  ResearchAgent.skip_label_sep (sep +:+ rest) = rest.
Proof.
  intros Hsep Hrest. induction sep as [|c sep IH].
  - rewrite sapp_nil_l. destruct rest as [|d rest]; [reflexivity|].
    simpl. rewrite (Hrest d eq_refl). reflexivity.
  - simpl in Hsep. apply andb_true_iff in Hsep. destruct Hsep as [Hc Hsep].
    rewrite sapp_cons. simpl. rewrite Hc. apply IH. exact Hsep.
Qed.

Lemma take_digits_app (digits rest : string) :
  Py.all_chars Py.is_digit digits = true ->
  (forall c, Py.first_char rest = Some c -> Py.is_digit c = false) ->
  ResearchAgent.take_digits (digits +:+ rest) = digits.
Proof.
  intros Hdig Hrest. induction digits as [|c digits IH].
  - rewrite sapp_nil_l. destruct rest as [|d rest]; [reflexivity|].
    simpl. rewrite (Hrest d eq_refl). reflexivity.
  - simpl in Hdig. apply andb_true_iff in Hdig. destruct Hdig as [Hc Hdig].
    rewrite sapp_cons. simpl. rewrite Hc, (IH Hdig). reflexivity.
Qed.

End ScoreFacts.

(** X15. A score is only ever read next to the word: whenever
    [_extract_accuracy_score] returns a number, the text contains "accuracy"
    in some casing, and the number is not negative (a minus sign is never
    read); the text contains that word as well whenever the conversion of the
    number raises. *)
Theorem accuracy_score_needs_label (text : string) :
  match ResearchAgent._extract_accuracy_score text with
  | inr (Some n) => (0 <= n)%Z /\ Spec.ci_substring "accuracy" text
  | inr None => True
  | inl _ => Spec.ci_substring "accuracy" text
  end.
Proof.
  unfold ResearchAgent._extract_accuracy_score.
  destruct (ResearchAgent.search_accuracy (Py.lower text)) as [group|] eqn:Hs;
    [|exact I].
  assert (Hword : Spec.ci_substring "accuracy" text).
  { apply contains_lower_spec; [reflexivity|].
    apply (search_contains _ group). exact Hs. }
  unfold ResearchAgent.int_of_group.
  destruct (String.length group <=? ResearchAgent.max_str_digits)%nat;
    [|exact Hword].
  split; [|exact Hword]. apply int_of_digits_go_nonneg. lia.
Qed.

(** X16. The score is the number after the first label. If the text is
    [before], then the word "accuracy" in any casing, then colons and
    whitespace (possibly none), then a non-empty run of digits that is not
    followed by a further digit, and if "accuracy" does not occur earlier,
    then: when the run has at most 4300 digits the score is its value, and
    when it has more the extraction raises a [ValueError]. *)
Theorem accuracy_score_reads_first_label
  (before label sep digits rest : string) :
  Py.contains "accuracy" (Py.lower before +:+ "accurac") = false ->
  Py.lower label = "accuracy" ->
  Py.all_chars ResearchAgent.is_label_sep sep = true ->
  Py.all_chars Py.is_digit digits = true ->
  digits <> "" ->
  (forall c, Py.first_char rest = Some c -> Py.is_digit c = false) ->
  ((String.length digits <= 4300)%nat ->
   ResearchAgent._extract_accuracy_score
     (before +:+ label +:+ sep +:+ digits +:+ rest)
   = inr (Some (Py.int_of_digits digits)))
  /\ ((4300 < String.length digits)%nat ->
      exists msg,
        ResearchAgent._extract_accuracy_score
          (before +:+ label +:+ sep +:+ digits +:+ rest)
        = inl (ValueError msg)).
Proof.
  intros Hnone Hlabel Hsep Hdig Hne Hrest.
  assert (Hsearch :
    ResearchAgent.search_accuracy
      (Py.lower (before +:+ label +:+ sep +:+ digits +:+ rest))
    = Some digits).
  { rewrite !lower_app, Hlabel, (lower_digits digits Hdig).
    apply search_skips_prefix; [exact Hnone|].
    unfold ResearchAgent.match_accuracy_here.
    rewrite strip_prefix_app.
    rewrite skip_label_sep_app.
    - rewrite take_digits_app.
      + destruct digits; [contradiction | reflexivity].
      + exact Hdig.
      + intros c Hc. rewrite first_char_lower in Hc.
        destruct (Py.first_char rest) as [d|] eqn:Hd; [|discriminate Hc].
        injection Hc as <-. rewrite is_digit_lower_char. apply Hrest.
        reflexivity.
    - rewrite all_label_sep_lower. exact Hsep.
    - intros c Hc. destruct digits as [|d digits]; [contradiction|].
      rewrite sapp_cons in Hc. injection Hc as <-.
      apply digit_not_label_sep. simpl in Hdig.
      apply andb_true_iff in Hdig. tauto. }
  unfold ResearchAgent._extract_accuracy_score. rewrite Hsearch.
  unfold ResearchAgent.int_of_group, ResearchAgent.max_str_digits.
  split; intros Hlen.
  - destruct (Nat.leb_spec (String.length digits) 4300) as [_ | Hgt];
      [reflexivity | lia].
  - destruct (Nat.leb_spec (String.length digits) 4300) as [Hle | _];
      [lia | eexists; reflexivity].
Qed.

Lemma accuracy_score_reads_first_label_witness :
  ResearchAgent._extract_accuracy_score
    ("Overall " +:+ "Accuracy" +:+ ": " +:+ "95" +:+ "% of claims hold")
  = inr (Some 95%Z).
Proof.
  apply (accuracy_score_reads_first_label "Overall " "Accuracy" ": " "95"
           "% of claims hold");
    try reflexivity;
    [discriminate | intros c H; injection H as <-; reflexivity | simpl; lia].
Defined.

(** ** Further properties: the research task *)

(** X17. [ResearchTask.research_topic] adds nothing of its own to the
    research agent's behaviour but the wrapping: a blank topic raises the
    [ValueError] and leaves the trace untouched (the task does not log); a
    failing completion call is the only call and its failure is raised; an
    answer is parsed and returned under [research_data] with the status
    [researched]. *)
Theorem research_task_outcomes
  (w : World) (topic research_depth content_type target_audience : string)
  (t : trace) :
  let rp :=
    ResearchAgent.task_description topic research_depth content_type
      target_audience in
  let run :=
    ResearchTask.research_topic w topic research_depth content_type
      target_audience t in
  match ResearchAgent.validate_input topic,
        complete w (completion_calls t) Researcher rp with
  | false, _ => run = (t, inl (ValueError "Topic cannot be empty"))
  | true, inl msg =>
      snd run = inl (UpstreamFailure msg)
      /\ completion_calls (fst run) = completion_calls t ++ [(Researcher, rp)]
  | true, inr text =>
      snd run
      = inr {| ResearchTask.research_data :=
                 ResearchAgent._parse_research_result text topic;
               ResearchTask.research_timestamp := now w (fst run);
               ResearchTask.status := "researched" |}
      /\ completion_calls (fst run) = completion_calls t ++ [(Researcher, rp)]
  end.
Proof.
  intros rp run. unfold run, ResearchTask.research_topic, bind.
  destruct (ResearchAgent.validate_input topic) eqn:Hv.
  - rewrite research_topic_run by exact Hv. fold rp.
    destruct (complete w (completion_calls t) Researcher rp) as [msg | text];
      cbn [fst snd ResearchTask._get_timestamp ret];
      (split; [reflexivity | apply completion_calls_after_task]).
  - rewrite research_topic_invalid by exact Hv.
    destruct (complete w (completion_calls t) Researcher rp); reflexivity.
Qed.



(** ** Further properties: research data with missing keys *)

(** X19. The requirements block is the empty string exactly when the research
    dictionary has none of the keys [key_facts], [sources] and [insights];
    as soon as one key is present, whatever its value, the block is not
    empty. *)
Theorem requirements_block_empty_iff_no_keys
  (research_data : gmap string pyval) :
  ContentCreationTask._prepare_research_requirements research_data = ""
  <-> (research_data !! "key_facts" = None
       /\ research_data !! "sources" = None
       /\ research_data !! "insights" = None).
Proof.
  unfold ContentCreationTask._prepare_research_requirements.
  destruct (research_data !! "key_facts") as [kf|];
    destruct (research_data !! "sources") as [src|];
    destruct (research_data !! "insights") as [ins|];
    cbn [app Py.join String.concat];
    (split; [intros H | intros (H1 & H2 & H3)]);
    try discriminate; try (repeat split; reflexivity);
    exfalso; revert H; rewrite ?sapp_assoc; discriminate.
Qed.
